(** * Verification of the IP geolocation microservice (app/)

    Shallow embedding of the Python sources:
    - [app/core/exceptions.py]: the [GeolocationError] hierarchy;
    - [app/core/validators.py]: [validate_ip_address], [is_valid_public_ipv4],
      on top of the parts of CPython's [ipaddress] module they call;
    - [app/services/ip_providers/ip_api.py]: [IPAPIProvider];
    - [app/services/geolocation.py]: [GeolocationService];
    - [app/dependencies/client_ip.py]: [get_client_ip].

    Python strings are modelled as [string] (8-bit characters, i.e. the
    latin-1 range, which is what Starlette decodes headers with).  Raised
    exceptions are the [Err] branch of a result type; [try]/[except] is a
    match on it. *)

From Stdlib Require Import ZArith Bool List String Ascii Lia QArith.
From Stdlib Require Import Numbers.DecimalString.
Import ListNotations.
Open Scope string_scope.
Open Scope Z_scope.

(* ------------------------------------------------------------------ *)
(** ** Python string primitives *)

Module PyStr.

(** [c.isspace()] for the characters of the latin-1 range. *)
Definition isspace (c : ascii) : bool :=
  let n := nat_of_ascii c in
  ((9 <=? n) && (n <=? 13))%nat || ((28 <=? n) && (n <=? 32))%nat
  || (n =? 133)%nat || (n =? 160)%nat.

(** [c.isascii() and c.isdigit()]. *)
Definition is_ascii_digit (c : ascii) : bool :=
  let n := nat_of_ascii c in ((48 <=? n) && (n <=? 57))%nat.

Fixpoint forall_chars (p : ascii -> bool) (s : string) : bool :=
  match s with
  | EmptyString => true
  | String c r => p c && forall_chars p r
  end.

Fixpoint contains_char (c : ascii) (s : string) : bool :=
  match s with
  | EmptyString => false
  | String x r => Ascii.eqb x c || contains_char c r
  end.

(** [s.split(c)] for a one-character separator. *)
Fixpoint split_on (c : ascii) (s : string) : list string :=
  match s with
  | EmptyString => [EmptyString]
  | String x r =>
      let rest := split_on c r in
      if Ascii.eqb x c then EmptyString :: rest
      else match rest with
           | h :: t => String x h :: t
           | [] => [String x EmptyString]
           end
  end.

(** [s.lstrip()] *)
Fixpoint lstrip (s : string) : string :=
  match s with
  | EmptyString => EmptyString
  | String c r => if isspace c then lstrip r else s
  end.

Fixpoint rev_str (s acc : string) : string :=
  match s with
  | EmptyString => acc
  | String c r => rev_str r (String c acc)
  end.

(** [s.rstrip()] and [s.strip()] *)
Definition rstrip (s : string) : string :=
  rev_str (lstrip (rev_str s EmptyString)) EmptyString.

Definition strip (s : string) : string := rstrip (lstrip s).

(** [s.split()] with no argument: maximal runs of non-whitespace. *)
Fixpoint split_ws_aux (s : string) (cur : string) : list string :=
  match s with
  | EmptyString =>
      match cur with EmptyString => [] | _ => [rev_str cur EmptyString] end
  | String c r =>
      if isspace c then
        match cur with
        | EmptyString => split_ws_aux r EmptyString
        | _ => rev_str cur EmptyString :: split_ws_aux r EmptyString
        end
      else split_ws_aux r (String c cur)
  end.

Definition split_ws (s : string) : list string := split_ws_aux s EmptyString.

(** [sep.join(l)] *)
Fixpoint join (sep : string) (l : list string) : string :=
  match l with
  | [] => EmptyString
  | [x] => x
  | x :: r => x ++ sep ++ join sep r
  end.

(** [str.lower()] on ASCII letters. *)
Definition lower_char (c : ascii) : ascii :=
  let n := nat_of_ascii c in
  if ((65 <=? n) && (n <=? 90))%nat then ascii_of_nat (n + 32) else c.

Fixpoint lower (s : string) : string :=
  match s with
  | EmptyString => EmptyString
  | String c r => String (lower_char c) (lower r)
  end.

(** [int(s, 10)] on a string of ASCII digits. *)
Fixpoint dec_value_aux (s : string) (acc : Z) : Z :=
  match s with
  | EmptyString => acc
  | String c r => dec_value_aux r (acc * 10 + Z.of_nat (nat_of_ascii c - 48))
  end.

Definition dec_value (s : string) : Z := dec_value_aux s 0.

(** [f"{n}"] for an int. *)
Definition z_str (n : Z) : string := NilEmpty.string_of_int (Z.to_int n).

End PyStr.

(* ------------------------------------------------------------------ *)
(** ** [app/core/exceptions.py] *)

Module Exceptions.

(** The concrete subclass of [GeolocationError], as [isinstance] sees it. *)
Inductive err_class :=
| CInvalidIP | CPrivateIP | CIPNotFound | CRateLimit | CProviderUnavailable
| CClientIPDetection.

Record GeolocationError := {
  cls : err_class;
  message : string;
  error_type : string;
  status_code : Z;
}.

Definition mk (c : err_class) (message error_type : string) (status_code : Z)
  : GeolocationError :=
  {| cls := c; message := message; error_type := error_type;
     status_code := status_code |}.

Definition InvalidIPError (ip : string) : GeolocationError :=
  mk CInvalidIP ("Invalid IPv4 address: " ++ ip) "invalid_ip" 400.

Definition PrivateIPError (ip : string) : GeolocationError :=
  mk CPrivateIP ("Cannot geolocate private/reserved IP: " ++ ip) "private_ip" 422.

Definition IPNotFoundError (ip : string) : GeolocationError :=
  mk CIPNotFound ("Geolocation data not found for IP: " ++ ip) "ip_not_found" 404.

Definition RateLimitError (provider : string) : GeolocationError :=
  mk CRateLimit ("Rate limit exceeded for provider: " ++ provider)
    "rate_limit_exceeded" 429.

Definition ProviderUnavailableError (provider reason : string) : GeolocationError :=
  mk CProviderUnavailable
    ("Geolocation provider " ++ provider ++ " is unavailable: " ++ reason)
    "provider_unavailable" 503.

Definition ClientIPDetectionError : GeolocationError :=
  mk CClientIPDetection "Unable to determine client IP address"
    "client_ip_detection_failed" 400.

(** Python exceptions the modelled code can see.  [ETimeout] and
    [EConnectError] are [httpx.TimeoutException] (with the name of its
    concrete subclass) and [httpx.ConnectError]; [EOther] is any other
    [Exception] subclass, named by [type(e).__name__] (KeyError,
    AttributeError, IndexError, pydantic's ValidationError, httpx.ReadError,
    ...). *)
Inductive exc :=
| EGeo (g : GeolocationError)
| ETimeout (name : string)
| EConnectError
| EOther (name : string).

Definition exc_name (e : exc) : string :=
  match e with
  | EGeo g =>
      match cls g with
      | CInvalidIP => "InvalidIPError" | CPrivateIP => "PrivateIPError"
      | CIPNotFound => "IPNotFoundError" | CRateLimit => "RateLimitError"
      | CProviderUnavailable => "ProviderUnavailableError"
      | CClientIPDetection => "ClientIPDetectionError"
      end
  | ETimeout n => n
  | EConnectError => "ConnectError"
  | EOther n => n
  end.

End Exceptions.

Import Exceptions.

(** A computation that returns a value or raises. *)
Inductive result (A : Type) :=
| Ok (a : A)
| Err (e : exc).
Arguments Ok {A} a.
Arguments Err {A} e.

Definition bind {A B} (m : result A) (k : A -> result B) : result B :=
  match m with Ok a => k a | Err e => Err e end.

Notation "'let*' x := m 'in' k" := (bind m (fun x => k))
  (at level 200, x name, m at level 100, right associativity).

Definition raise {A} (g : GeolocationError) : result A := Err (EGeo g).

(* ------------------------------------------------------------------ *)
(** ** CPython's [ipaddress] module (the parts [validators.py] uses)

    [IPv4Address(str)] as in CPython 3.13: [_ip_int_from_string] and
    [_parse_octet]; IPv4 networks and the [is_*] properties.  IPv6 parsing
    is left abstract: [validate_ip_address] rejects every IPv6 address
    whatever its value, so only the fact that a string parses as IPv6 or
    not is observable. *)

Module IPAddress.

(** [IPv4Address._parse_octet] *)
Definition parse_octet (o : string) : option Z :=
  if String.eqb o "" then None
  else if negb (PyStr.forall_chars PyStr.is_ascii_digit o) then None
  else if (3 <? String.length o)%nat then None
  else if negb (String.eqb o "0") && String.prefix "0" o then None
  else let v := PyStr.dec_value o in
       if 255 <? v then None else Some v.

(** [IPv4Address._ip_int_from_string]: [int.from_bytes(map(_parse_octet,
    octets), 'big')]. *)
Definition ip_int_from_string (s : string) : option Z :=
  if String.eqb s "" then None
  else
    let octets := PyStr.split_on "." s in
    if negb (List.length octets =? 4)%nat then None
    else fold_left
           (fun acc o =>
              match acc, parse_octet o with
              | Some a, Some v => Some (a * 256 + v)
              | _, _ => None
              end) octets (Some 0).

(** [IPv4Address.__init__] on a [str]: a ['/'] is refused first. *)
Definition ipv4_of_string (s : string) : option Z :=
  if PyStr.contains_char "/" s then None else ip_int_from_string s.

Inductive ip_addr :=
| IPv4Address (ip : Z)
| IPv6Address (ip : Z).

Definition ALL_ONES : Z := 2 ^ 32 - 1.

(** [_BaseV4._make_netmask]: [_ALL_ONES ^ (_ALL_ONES >> prefixlen)]. *)
Definition netmask (prefixlen : Z) : Z :=
  Z.lxor ALL_ONES (Z.shiftr ALL_ONES prefixlen).

Record IPv4Network := { network_address : Z; prefixlen : Z }.

(** [IPv4Network.__contains__] for an address:
    [other._ip & self.netmask._ip == self.network_address._ip]. *)
Definition net_contains (n : IPv4Network) (a : Z) : bool :=
  Z.land a (netmask (prefixlen n)) =? network_address n.

(** The integer of the dotted quad [o1.o2.o3.o4]. *)
Definition ip4 (o1 o2 o3 o4 : Z) : Z :=
  o1 * 2 ^ 24 + o2 * 2 ^ 16 + o3 * 2 ^ 8 + o4.

Definition net (o1 o2 o3 o4 p : Z) : IPv4Network :=
  {| network_address := ip4 o1 o2 o3 o4; prefixlen := p |}.

(** [_IPv4Constants] *)
Definition _private_networks : list IPv4Network :=
  [ net 0 0 0 0 8; net 10 0 0 0 8; net 127 0 0 0 8; net 169 254 0 0 16;
    net 172 16 0 0 12; net 192 0 0 0 24; net 192 0 0 170 31;
    net 192 0 2 0 24; net 192 168 0 0 16; net 198 18 0 0 15;
    net 198 51 100 0 24; net 203 0 113 0 24; net 240 0 0 0 4;
    net 255 255 255 255 32 ].

Definition _private_networks_exceptions : list IPv4Network :=
  [ net 192 0 0 9 32; net 192 0 0 10 32 ].

Definition _loopback_network := net 127 0 0 0 8.
Definition _linklocal_network := net 169 254 0 0 16.
Definition _multicast_network := net 224 0 0 0 4.
Definition _reserved_network := net 240 0 0 0 4.
Definition _unspecified_address := ip4 0 0 0 0.

Definition is_private (a : Z) : bool :=
  existsb (fun n => net_contains n a) _private_networks
  && forallb (fun n => negb (net_contains n a)) _private_networks_exceptions.

Definition is_loopback (a : Z) : bool := net_contains _loopback_network a.
Definition is_reserved (a : Z) : bool := net_contains _reserved_network a.
Definition is_multicast (a : Z) : bool := net_contains _multicast_network a.
Definition is_link_local (a : Z) : bool := net_contains _linklocal_network a.
Definition is_unspecified (a : Z) : bool := a =? _unspecified_address.

End IPAddress.

Import IPAddress.

(* ------------------------------------------------------------------ *)
(** ** [app/core/validators.py] *)

Module Validators.
Section Validators.

(** CPython's IPv6 literal parser ([IPv6Address(str)]), left abstract. *)
Variable ipv6_of_string : string -> option Z.

(** [ipaddress.ip_address(address)] on a [str]: try IPv4, then IPv6, else
    [ValueError] ([None]). *)
Definition ip_address (s : string) : option ip_addr :=
  match ipv4_of_string s with
  | Some a => Some (IPv4Address a)
  | None =>
      match ipv6_of_string s with
      | Some a => Some (IPv6Address a)
      | None => None
      end
  end.

Definition validate_ip_address (ip : string) : result Z :=
  match ip_address ip with
  | None => raise (InvalidIPError ip)
  | Some (IPv6Address _) => raise (InvalidIPError ip)
  | Some (IPv4Address ip_obj) =>
      if is_private ip_obj then raise (PrivateIPError ip)
      else if is_loopback ip_obj then raise (PrivateIPError ip)
      else if is_reserved ip_obj then raise (PrivateIPError ip)
      else if is_multicast ip_obj then raise (PrivateIPError ip)
      else if is_link_local ip_obj then raise (PrivateIPError ip)
      else if is_unspecified ip_obj then raise (PrivateIPError ip)
      else Ok ip_obj
  end.

(** [except (InvalidIPError, PrivateIPError)] *)
Definition is_validation_error (e : exc) : bool :=
  match e with
  | EGeo g => match cls g with CInvalidIP | CPrivateIP => true | _ => false end
  | _ => false
  end.

Definition is_valid_public_ipv4 (ip : string) : result bool :=
  match validate_ip_address ip with
  | Ok _ => Ok true
  | Err e => if is_validation_error e then Ok false else Err e
  end.

End Validators.
End Validators.

(** Membership in the address blocks, read as inclusive intervals [lo, hi]
    of the 32-bit integer. *)
Definition in_block (lo hi a : Z) : bool := (lo <=? a) && (a <=? hi).

(** The union of the [is_*] tests that [validate_ip_address] rejects. *)
Definition rejected (a : Z) : bool :=
  is_private a || is_loopback a || is_reserved a || is_multicast a
  || is_link_local a || is_unspecified a.


(** The blocks [validate_ip_address] rejects, written out as intervals:
    0.0.0.0/8, 10/8, 127/8, 169.254/16, 172.16/12, 192.0.0.0/24 except
    192.0.0.9 and 192.0.0.10, 192.0.2.0/24, 192.168/16, 198.18/15,
    198.51.100.0/24, 203.0.113.0/24, and everything from 224.0.0.0 up. *)
Definition amended_rejected (a : Z) : bool :=
  in_block (ip4 0 0 0 0) (ip4 0 255 255 255) a
  || in_block (ip4 10 0 0 0) (ip4 10 255 255 255) a
  || in_block (ip4 127 0 0 0) (ip4 127 255 255 255) a
  || in_block (ip4 169 254 0 0) (ip4 169 254 255 255) a
  || in_block (ip4 172 16 0 0) (ip4 172 31 255 255) a
  || (in_block (ip4 192 0 0 0) (ip4 192 0 0 255) a
      && negb (a =? ip4 192 0 0 9) && negb (a =? ip4 192 0 0 10))
  || in_block (ip4 192 0 2 0) (ip4 192 0 2 255) a
  || in_block (ip4 192 168 0 0) (ip4 192 168 255 255) a
  || in_block (ip4 198 18 0 0) (ip4 198 19 255 255) a
  || in_block (ip4 198 51 100 0) (ip4 198 51 100 255) a
  || in_block (ip4 203 0 113 0) (ip4 203 0 113 255) a
  || in_block (ip4 224 0 0 0) (ip4 255 255 255 255) a.

(** The blocks the spec lists for [PrivateOrReserved]: 10/8, 172.16/12,
    192.168/16, 127/8, 169.254/16, 224/4 and above, 0.0.0.0 and
    255.255.255.255. *)
Definition claimed_rejected (a : Z) : bool :=
  in_block (ip4 10 0 0 0) (ip4 10 255 255 255) a
  || in_block (ip4 172 16 0 0) (ip4 172 31 255 255) a
  || in_block (ip4 192 168 0 0) (ip4 192 168 255 255) a
  || in_block (ip4 127 0 0 0) (ip4 127 255 255 255) a
  || in_block (ip4 169 254 0 0) (ip4 169 254 255 255) a
  || in_block (ip4 224 0 0 0) (ip4 255 255 255 255) a
  || (a =? ip4 0 0 0 0) || (a =? ip4 255 255 255 255).

(** An IPv6 parser that accepts nothing, for concrete runs. *)
Definition no_ipv6 (_ : string) : option Z := None.

(* ------------------------------------------------------------------ *)
(** ** Python values, as [json.loads] produces them *)

Module PyValue.

Set Warnings "-register-all".

Inductive pyval :=
| PNone
| PBool (b : bool)
| PInt (z : Z)
| PFloat (q : Q)       (** float literals as rationals; only passed through *)
| PStr (s : string)
| PList (l : list pyval)
| PDict (d : list (string * pyval)).  (** a dict: keys are distinct *)

(** [bool(v)] *)
Definition truthy (v : pyval) : bool :=
  match v with
  | PNone => false
  | PBool b => b
  | PInt z => negb (z =? 0)
  | PFloat q => negb (Qeq_bool q 0)
  | PStr s => negb (String.eqb s "")
  | PList l => negb (List.forallb (fun _ => false) l)
  | PDict d => negb (List.forallb (fun _ => false) d)
  end.

Fixpoint lookup (k : string) (d : list (string * pyval)) : option pyval :=
  match d with
  | [] => None
  | (k', v) :: r => if String.eqb k k' then Some v else lookup k r
  end.

(** [data.get(k, default)]: only a dict has [.get]. *)
Definition py_get (data : pyval) (k : string) (default : pyval) : result pyval :=
  match data with
  | PDict d => Ok (match lookup k d with Some v => v | None => default end)
  | _ => Err (EOther "AttributeError")
  end.

(** [data[k]] *)
Definition py_getitem (data : pyval) (k : string) : result pyval :=
  match data with
  | PDict d => match lookup k d with
               | Some v => Ok v
               | None => Err (EOther "KeyError")
               end
  | _ => Err (EOther "TypeError")
  end.

(** [v == "lit"] for a string literal. *)
Definition py_eq_str (v : pyval) (lit : string) : bool :=
  match v with PStr s => String.eqb s lit | _ => false end.

(** [v.split()]: only a [str] has it. *)
Definition py_split (v : pyval) : result (list string) :=
  match v with
  | PStr s => Ok (PyStr.split_ws s)
  | _ => Err (EOther "AttributeError")
  end.

(** [l[i]] *)
Definition py_index (l : list string) (i : nat) : result string :=
  match nth_error l i with
  | Some x => Ok x
  | None => Err (EOther "IndexError")
  end.

End PyValue.

Import PyValue.

(* ------------------------------------------------------------------ *)
(** ** [app/models/responses.py]: [GeolocationResponse] and its pydantic
    validation (lax mode) *)

Module Responses.

Record GeolocationResponse := {
  ip : ip_addr;
  country : string;
  country_code : string;
  region : string;
  region_code : string;
  city : string;
  zip_code : option string;
  latitude : Q;
  longitude : Q;
  timezone : string;
  isp : string;
  organization : string;
  as_number : string;
  as_name : string;
}.

Section Validation.

Variable ipv6_of_string : string -> option Z.
(** pydantic's parsing of a numeric string for a [float] field. *)
Variable float_of_str : string -> option Q.

(** [str] field: pydantic v2 accepts only a [str]. *)
Definition v_str (v : pyval) : option string :=
  match v with PStr s => Some s | _ => None end.

(** [str | None] field. *)
Definition v_opt_str (v : pyval) : option (option string) :=
  match v with PNone => Some None | PStr s => Some (Some s) | _ => None end.

(** [float] field. *)
Definition v_float (v : pyval) : option Q :=
  match v with
  | PFloat q => Some q
  | PInt z => Some (inject_Z z)
  | PBool b => Some (if b then 1%Q else 0%Q)
  | PStr s => float_of_str s
  | _ => None
  end.

(** [IPvAnyAddress] field: [IPv4Address(v)], else [IPv6Address(v)]; an int
    is taken as the address value, a [str] is parsed; the [str()] of any
    other JSON value is not an address literal. *)
Definition v_ip (v : pyval) : option ip_addr :=
  match v with
  | PStr s => Validators.ip_address ipv6_of_string s
  | PBool b => Some (IPv4Address (if b then 1 else 0))
  | PInt z =>
      if (0 <=? z) && (z <? 2 ^ 32) then Some (IPv4Address z)
      else if (0 <=? z) && (z <? 2 ^ 128) then Some (IPv6Address z)
      else None
  | _ => None
  end.

Definition opt_bind {A B} (o : option A) (k : A -> option B) : option B :=
  match o with Some a => k a | None => None end.

Notation "x <- o ;; k" := (opt_bind o (fun x => k))
  (at level 61, o at next level, right associativity).

(** [GeolocationResponse(ip=..., ...)]: every field validated, else
    [ValidationError]. *)
Definition construct (ip_ country_ country_code_ region_ region_code_ city_
  zip_code_ latitude_ longitude_ timezone_ isp_ organization_ as_number_
  as_name_ : pyval) : result GeolocationResponse :=
  match
    (i <- v_ip ip_ ;; c <- v_str country_ ;; cc <- v_str country_code_ ;;
     r <- v_str region_ ;; rc <- v_str region_code_ ;; ci <- v_str city_ ;;
     z <- v_opt_str zip_code_ ;; la <- v_float latitude_ ;;
     lo <- v_float longitude_ ;; tz <- v_str timezone_ ;; is <- v_str isp_ ;;
     o <- v_str organization_ ;; an <- v_str as_number_ ;;
     am <- v_str as_name_ ;;
     Some {| ip := i; country := c; country_code := cc; region := r;
             region_code := rc; city := ci; zip_code := z; latitude := la;
             longitude := lo; timezone := tz; isp := is; organization := o;
             as_number := an; as_name := am |})
  with
  | Some g => Ok g
  | None => Err (EOther "ValidationError")
  end.

End Validation.
End Responses.

Import Responses.

(* ------------------------------------------------------------------ *)
(** ** [app/services/ip_providers/ip_api.py]: [IPAPIProvider] *)

Module IPAPI.

(** What [await client.get(url, timeout=...)] does: a response (status code
    and body bytes; redirects already followed), or an exception. *)
Inductive http_outcome :=
| Response (status_code : Z) (content : string)
| Raises (e : exc).

(** The shared [httpx.AsyncClient]: [client.get] at a URL and a timeout in
    seconds. *)
Definition http_client := string -> Z -> http_outcome.

(** [httpx.Timeout(5.0)], the client's default. *)
Definition DEFAULT_TIMEOUT : Z := 5.
Definition BASE_URL : string := "http://ip-api.com/json".
Definition name : string := "ip-api.com".

Definition send (o : http_outcome) : result (Z * string) :=
  match o with
  | Response c b => Ok (c, b)
  | Raises e => Err e
  end.

(** [except (RateLimitError, IPNotFoundError, ProviderUnavailableError)] *)
Definition reraised (c : err_class) : bool :=
  match c with
  | CRateLimit | CIPNotFound | CProviderUnavailable => true
  | _ => false
  end.

(** The three [except] clauses of [get_geolocation], in order. *)
Definition handler {A} (m : result A) : result A :=
  match m with
  | Ok r => Ok r
  | Err ((ETimeout _ | EConnectError) as e) =>
      raise (ProviderUnavailableError name ("Network error: " ++ exc_name e))
  | Err (EGeo g) =>
      if reraised (cls g) then Err (EGeo g)
      else raise (ProviderUnavailableError name
                    ("Unexpected error: " ++ exc_name (EGeo g)))
  | Err e =>
      raise (ProviderUnavailableError name ("Unexpected error: " ++ exc_name e))
  end.

Section Provider.

Variable ipv6_of_string : string -> option Z.
Variable float_of_str : string -> option Q.
(** [json.loads] on the body: a value, or the text of the error. *)
Variable json_loads : string -> pyval + string.

(** [response.json()] inside its own [try]. *)
Definition parse_json (content : string) : result pyval :=
  match json_loads content with
  | inl v => Ok v
  | inr e => raise (ProviderUnavailableError name ("Invalid JSON response: " ++ e))
  end.

(** [data.get("as", "").split()[0] if data.get("as") else ""] *)
Definition as_number_of (data : pyval) : result pyval :=
  let* a := py_get data "as" PNone in
  if truthy a then
    let* a' := py_get data "as" (PStr "") in
    let* toks := py_split a' in
    let* t := py_index toks 0 in
    Ok (PStr t)
  else Ok (PStr "").

(** [" ".join(data.get("as", "").split()[1:]) if data.get("as") else ""] *)
Definition as_name_of (data : pyval) : result pyval :=
  let* a := py_get data "as" PNone in
  if truthy a then
    let* a' := py_get data "as" (PStr "") in
    let* toks := py_split a' in
    Ok (PStr (PyStr.join " " (skipn 1 toks)))
  else Ok (PStr "").

(** The body of the [try] block. *)
Definition lookup_body (client : http_client) (ip : string)
  : result GeolocationResponse :=
  let url := BASE_URL ++ "/" ++ ip in
  let* resp := send (client url DEFAULT_TIMEOUT) in
  let (code, content) := resp in
  if code =? 429 then raise (RateLimitError name)
  else if code >=? 500 then
    raise (ProviderUnavailableError name ("HTTP " ++ PyStr.z_str code))
  else
    let* data := parse_json content in
    let* st := py_get data "status" PNone in
    if py_eq_str st "fail" then raise (IPNotFoundError ip)
    else
      let* q := py_getitem data "query" in
      let* country_ := py_get data "country" (PStr "") in
      let* country_code_ := py_get data "countryCode" (PStr "") in
      let* region_ := py_get data "regionName" (PStr "") in
      let* region_code_ := py_get data "region" (PStr "") in
      let* city_ := py_get data "city" (PStr "") in
      let* zip_ := py_get data "zip" PNone in
      let* lat_ := py_get data "lat" (PFloat 0) in
      let* lon_ := py_get data "lon" (PFloat 0) in
      let* tz_ := py_get data "timezone" (PStr "") in
      let* isp_ := py_get data "isp" (PStr "") in
      let* org_ := py_get data "org" (PStr "") in
      let* asn_ := as_number_of data in
      let* asname_ := as_name_of data in
      construct ipv6_of_string float_of_str q country_ country_code_ region_
        region_code_ city_ zip_ lat_ lon_ tz_ isp_ org_ asn_ asname_.

Definition get_geolocation (client : http_client) (ip : string)
  : result GeolocationResponse :=
  handler (lookup_body client ip).

End Provider.

Definition check_health (client : http_client) : result bool :=
  match client (BASE_URL ++ "/8.8.8.8") 3 with
  | Response c _ => Ok (c =? 200)
  | Raises _ => Ok false            (* except Exception: return False *)
  end.

End IPAPI.

(* ------------------------------------------------------------------ *)
(** ** [app/services/ip_providers/base.py] and [app/services/geolocation.py] *)

Module Service.

(** [IPGeolocationProvider]: the abstract provider.  A provider may keep
    state of its own (connections, a test double's call log), threaded
    through each call. *)
Class IPGeolocationProvider (P : Type) := {
  get_geolocation : P -> string -> P * result GeolocationResponse;
  check_health : P -> P * result bool;
  name : P -> string;
}.

(** [IPAPIProvider] as an [IPGeolocationProvider]; its only dependency is
    the shared HTTP client. *)
Record IPAPIProvider := { client : IPAPI.http_client }.

Definition ipapi_provider (ipv6_of_string : string -> option Z)
  (float_of_str : string -> option Q) (json_loads : string -> pyval + string)
  : IPGeolocationProvider IPAPIProvider :=
  {| get_geolocation p ip :=
       (p, IPAPI.get_geolocation ipv6_of_string float_of_str json_loads
             (client p) ip);
     check_health p := (p, IPAPI.check_health (client p));
     name _ := IPAPI.name |}.

(** A test double's call counter around any provider. *)
Record Counting (P : Type) := { inner : P; calls : nat }.
Arguments inner {P} c.
Arguments calls {P} c.

#[export] Instance counting_provider {P} `{IPGeolocationProvider P}
  : IPGeolocationProvider (Counting P) :=
  {| get_geolocation c ip :=
       let (p', r) := get_geolocation (inner c) ip in
       ({| inner := p'; calls := S (calls c) |}, r);
     check_health c :=
       let (p', r) := check_health (inner c) in
       ({| inner := p'; calls := calls c |}, r);
     name c := name (inner c) |}.

Record GeolocationService (P : Type) := { provider : P }.
Arguments provider {P} g.

Section Service.

Variable ipv6_of_string : string -> option Z.
Context {P : Type} `{IPGeolocationProvider P}.

(** [GeolocationService.geolocate_ip]: [validate_ip_address(ip)], then
    [return await self.provider.get_geolocation(ip)]. *)
Definition geolocate_ip (self : GeolocationService P) (ip : string)
  : GeolocationService P * result GeolocationResponse :=
  match Validators.validate_ip_address ipv6_of_string ip with
  | Err e => (self, Err e)
  | Ok _ =>
      let (p', r) := get_geolocation (provider self) ip in
      ({| provider := p' |}, r)
  end.

Definition check_provider_health (self : GeolocationService P)
  : GeolocationService P * result bool :=
  let (p', r) := check_health (provider self) in ({| provider := p' |}, r).

Definition provider_name (self : GeolocationService P) : string :=
  name (provider self).

End Service.
End Service.

(* ------------------------------------------------------------------ *)
(** ** [app/dependencies/client_ip.py] *)

Module ClientIP.

(** Starlette's [request.client]: [Address(host, port)] or [None]. *)
Record Address := { host : string; port : Z }.

(** The request state [get_client_ip] reads: the raw header list (names
    lower-cased, as the ASGI server delivers them; values latin-1) and the
    transport peer. *)
Record Request := {
  headers : list (string * string);
  client : option Address;
}.

Fixpoint header_lookup (k : string) (hs : list (string * string)) : option string :=
  match hs with
  | [] => None
  | (k', v) :: r => if String.eqb k k' then Some v else header_lookup k r
  end.

(** [request.headers.get(key)]: the key is lower-cased, the first matching
    header wins. *)
Definition headers_get (request : Request) (key : string) : option string :=
  header_lookup (PyStr.lower key) (headers request).

(** The walrus test [if x := ...]: [None] and [""] are falsy. *)
Definition truthy_str (o : option string) : option string :=
  match o with
  | Some s => if String.eqb s "" then None else Some s
  | None => None
  end.

Definition get_client_ip (request : Request) : result string :=
  match truthy_str (headers_get request "X-Forwarded-For") with
  | Some forwarded =>
      match PyStr.split_on "," forwarded with
      | first :: _ => Ok (PyStr.strip first)
      | [] => Err (EOther "IndexError")
      end
  | None =>
      match truthy_str (headers_get request "X-Real-IP") with
      | Some real_ip => Ok (PyStr.strip real_ip)
      | None =>
          match client request with
          | Some c => if String.eqb (host c) "" then raise ClientIPDetectionError
                      else Ok (host c)
          | None => raise ClientIPDetectionError
          end
      end
  end.

(** The spec's reading: the text of a header before its first comma. *)
Fixpoint first_token (s : string) : string :=
  match s with
  | EmptyString => EmptyString
  | String c r => if Ascii.eqb c "," then EmptyString else String c (first_token r)
  end.

(** A source is usable when it is present and non-empty. *)
Definition usable (o : option string) : bool :=
  match o with Some s => negb (String.eqb s "") | None => false end.

Definition peer (request : Request) : option string :=
  match client request with Some c => Some (host c) | None => None end.

(** The spec's priority order over the three sources. *)
Definition client_ip_spec (request : Request) : result string :=
  let xff := headers_get request "X-Forwarded-For" in
  let xri := headers_get request "X-Real-IP" in
  if usable xff then Ok (PyStr.strip (first_token (match xff with Some v => v | None => "" end)))
  else if usable xri then Ok (PyStr.strip (match xri with Some v => v | None => "" end))
  else if usable (peer request) then Ok (match peer request with Some h => h | None => "" end)
  else raise ClientIPDetectionError.

(** The request with every header named [k] removed. *)
Definition without_header (k : string) (request : Request) : Request :=
  {| headers := filter (fun kv => negb (String.eqb (fst kv) k)) (headers request);
     client := client request |}.

End ClientIP.

(* ------------------------------------------------------------------ *)
(** ** Fixtures of [tests/unit/test_ip_providers.py] *)

Module Fixtures.

(** The ip-api.com body for 8.8.8.8 used by [test_successful_lookup]. *)
Definition google_body : pyval :=
  PDict [("status", PStr "success"); ("country", PStr "United States");
         ("countryCode", PStr "US"); ("region", PStr "CA");
         ("regionName", PStr "California"); ("city", PStr "Mountain View");
         ("zip", PStr "94035"); ("lat", PFloat (37386 # 1000));
         ("lon", PFloat (-1220838 # 10000));
         ("timezone", PStr "America/Los_Angeles"); ("isp", PStr "Google LLC");
         ("org", PStr "Google Public DNS"); ("as", PStr "AS15169 GOOGLE");
         ("query", PStr "8.8.8.8")].

(** The body of [test_missing_as_field]: no "as" key. *)
Definition cloudflare_body : pyval :=
  PDict [("status", PStr "success"); ("country", PStr "Australia");
         ("countryCode", PStr "AU"); ("region", PStr "QLD");
         ("regionName", PStr "Queensland"); ("city", PStr "Brisbane");
         ("zip", PStr ""); ("lat", PFloat (-274678 # 10000));
         ("lon", PFloat (1530281 # 10000));
         ("timezone", PStr "Australia/Brisbane"); ("isp", PStr "Cloudflare");
         ("org", PStr "APNIC Research"); ("query", PStr "1.1.1.1")].

(** A [json.loads] that knows the fixture bodies by name. *)
Definition fixture_json (content : string) : pyval + string :=
  if String.eqb content "google" then inl google_body
  else if String.eqb content "cloudflare" then inl cloudflare_body
  else if String.eqb content "nobody" then inl (PDict [("status", PStr "success")])
  else inr "Expecting value: line 1 column 1 (char 0)".

(** An [httpx_mock] answering every URL with one outcome. *)
Definition mock (o : IPAPI.http_outcome) : IPAPI.http_client := fun _ _ => o.

Definition no_float (_ : string) : option Q := None.

Definition lookup_with (o : IPAPI.http_outcome) (ip : string)
  : result GeolocationResponse :=
  IPAPI.get_geolocation no_ipv6 no_float fixture_json (mock o) ip.

End Fixtures.

(* ------------------------------------------------------------------ *)
(** ** [ipaddress._BaseV4._string_from_ip_int]: [str(IPv4Address)] *)

(** ['.'.join(map(str, ip_int.to_bytes(4, 'big')))] *)
Definition _string_from_ip_int (a : Z) : string :=
  PyStr.join "."
    (map (fun k => PyStr.z_str (Z.land (Z.shiftr a (8 * k)) 255)) [3; 2; 1; 0]).

(** Finite tables used to check the octet printer and parser against each
    other: every octet value, and every string of one to three digits. *)
Definition octet_ok (v : Z) : bool :=
  let o := PyStr.z_str v in
  match parse_octet o with Some w => w =? v | None => false end
  && negb (PyStr.contains_char "." o) && negb (PyStr.contains_char "/" o)
  && negb (String.eqb o "").

Definition digit (d : nat) : ascii := ascii_of_nat (48 + d).

Definition digit_strings : list string :=
  let ds := seq 0 10 in
  map (fun d => String (digit d) "") ds
  ++ flat_map (fun d1 => map (fun d2 => String (digit d1) (String (digit d2) "")) ds) ds
  ++ flat_map (fun d1 => flat_map (fun d2 => map (fun d3 =>
         String (digit d1) (String (digit d2) (String (digit d3) ""))) ds) ds) ds.

Definition canon_ok (o : string) : bool :=
  match parse_octet o with Some v => String.eqb (PyStr.z_str v) o | None => true end.

(* ------------------------------------------------------------------ *)
(** ** [app/core/http_client.py]: the [HTTPClient] singleton

    An [httpx.AsyncClient] is identified by the order it was constructed
    in; [next_id] counts the constructions so far. *)

Module HTTPClient.

Record State := { _client : option nat; next_id : nat }.

(** [HTTPClient.get_client()] *)
Definition get_client (st : State) : nat * State :=
  match _client st with
  | Some c => (c, st)
  | None => (next_id st, {| _client := Some (next_id st); next_id := S (next_id st) |})
  end.

(** [HTTPClient.close_client()]: [aclose()] then forget the client. *)
Definition close_client (st : State) : State :=
  match _client st with
  | Some _ => {| _client := None; next_id := next_id st |}
  | None => st
  end.

(** A sequence of class-method calls. *)
Inductive op := GetClient | CloseClient.

Fixpoint run (ops : list op) (st : State) : list nat * State :=
  match ops with
  | [] => ([], st)
  | GetClient :: r =>
      let (c, st') := get_client st in
      let (cs, st'') := run r st' in (c :: cs, st'')
  | CloseClient :: r => run r (close_client st)
  end.

(** The class attribute [_client = None] before any call. *)
Definition initial : State := {| _client := None; next_id := 0 |}.

(** Every client built so far has an identity below [next_id]. *)
Definition built (st : State) : Prop :=
  forall c, _client st = Some c -> (c < next_id st)%nat.

End HTTPClient.

(* ------------------------------------------------------------------ *)
(** ** [app/models/errors.py], [app/main.py] and
    [app/api/v1/endpoints/geolocation.py] *)

Module Main.

Import Service.

(** What the application sends back.  An exception that no registered
    handler matches becomes Starlette's plain 500 response; so does a
    record that [JSONResponse] cannot render. *)
Inductive api_response :=
| JSON200 (g : GeolocationResponse)
| JSONError (status_code : Z) (content : pyval)
| InternalServerError.

(** [ErrorResponse(error=ErrorDetail(type=..., message=...)).model_dump()];
    [field] keeps its default [None]. *)
Definition error_content (exc : GeolocationError) : pyval :=
  PDict [("error", PDict [("type", PStr (error_type exc));
                          ("message", PStr (message exc));
                          ("field", PNone)])].

(** [geolocation_error_handler] *)
Definition geolocation_error_handler (exc : GeolocationError) : api_response :=
  JSONError (status_code exc) (error_content exc).

(** FastAPI's dispatch of an endpoint's outcome: a returned record is
    serialised and rendered by [JSONResponse] ([json.dumps] with
    [allow_nan=False]); [renders g] says whether that succeeds, and a
    failure (the [ValueError] raised for a NaN or infinite latitude or
    longitude) escapes every handler.  A [GeolocationError] (any subclass)
    goes to [geolocation_error_handler]; any other exception is unhandled. *)
Definition respond (renders : GeolocationResponse -> bool)
  (r : result GeolocationResponse) : api_response :=
  match r with
  | Ok g => if renders g then JSON200 g else InternalServerError
  | Err (EGeo g) => geolocation_error_handler g
  | Err _ => InternalServerError
  end.

Record HealthCheckResponse := {
  status : string;
  version : string;
  provider_ : string;
  provider_status : string;
}.

Inductive health_response :=
| Health200 (h : HealthCheckResponse)
| Health500.

Section App.

Variable ipv6_of_string : string -> option Z.
Variable float_of_str : string -> option Q.
Variable json_loads : string -> pyval + string.
(** [app.__version__] *)
Variable __version__ : string.
(** Whether [JSONResponse] renders a record.  Floats are modelled as
    rationals, so the non-finite values that make rendering fail are not
    representable; the outcome of rendering is left open instead. *)
Variable renders : GeolocationResponse -> bool.

Definition provider_inst : IPGeolocationProvider IPAPIProvider :=
  ipapi_provider ipv6_of_string float_of_str json_loads.

(** [GeolocationService()]: [provider or IPAPIProvider()], on the shared
    HTTP client. *)
Definition default_service (client_ : IPAPI.http_client)
  : GeolocationService IPAPIProvider :=
  {| provider := {| client := client_ |} |}.

(** [GET /geolocate/{ip}]: [await GeolocationService().geolocate_ip(ip)] *)
Definition geolocate_ip_endpoint (client_ : IPAPI.http_client) (ip_ : string)
  : api_response :=
  respond renders (snd (@geolocate_ip ipv6_of_string _ provider_inst
                  (default_service client_) ip_)).

(** [GET /geolocate]: the [Depends(get_client_ip)] dependency runs first. *)
Definition geolocate_client_ip_endpoint (client_ : IPAPI.http_client)
  (request : ClientIP.Request) : api_response :=
  match ClientIP.get_client_ip request with
  | Ok client_ip => geolocate_ip_endpoint client_ client_ip
  | Err e => respond renders (Err e)
  end.

(** [GET /health] *)
Definition health_check (client_ : IPAPI.http_client) : health_response :=
  let service := default_service client_ in
  match snd (@check_provider_health _ provider_inst service) with
  | Ok provider_available =>
      Health200
        {| status := if provider_available then "healthy" else "degraded";
           version := __version__;
           provider_ := @provider_name _ provider_inst service;
           provider_status :=
             if provider_available then "available" else "unavailable" |}
  | Err _ => Health500
  end.

End App.
End Main.

(** A string with no whitespace at either end: its first character and its
    last character (the first of its reversal) are not [isspace]. *)
Definition head_not_space (l : list ascii) : bool :=
  match l with [] => true | c :: _ => negb (PyStr.isspace c) end.

Definition no_outer_space (s : string) : bool :=
  head_not_space (list_ascii_of_string s)
  && head_not_space (List.rev (list_ascii_of_string s)).

(** [s.lstrip()] on the characters of [s]. *)
Fixpoint lstrip_l (l : list ascii) : list ascii :=
  match l with
  | [] => []
  | c :: r => if PyStr.isspace c then lstrip_l r else l
  end.






(* ================================================================== *)
(** * Proofs *)

Example validate_8888 :
  Validators.validate_ip_address no_ipv6 "8.8.8.8" = Ok (ip4 8 8 8 8).
Proof. vm_compute. reflexivity. Qed.
Example validate_private :
  map (fun s => match Validators.validate_ip_address no_ipv6 s with
                | Ok _ => "ok" | Err e => exc_name e end)
    ["10.0.0.1"; "172.31.255.255"; "192.168.0.1"; "127.0.0.1"; "0.0.0.0";
     "255.255.255.255"; "224.0.0.1"; "169.254.0.1"; "256.1.1.1"; "1.1.1";
     ""; "01.1.1.1"; "192.0.2.1"; "1.1.1.1"; "100.64.0.1"]
  = ["PrivateIPError"; "PrivateIPError"; "PrivateIPError"; "PrivateIPError";
     "PrivateIPError"; "PrivateIPError"; "PrivateIPError"; "PrivateIPError";
     "InvalidIPError"; "InvalidIPError"; "InvalidIPError"; "InvalidIPError";
     "PrivateIPError"; "ok"; "ok"].
Proof. vm_compute. reflexivity. Qed.

Lemma land_netmask a p :
  0 <= a < 2 ^ 32 -> 0 <= p <= 32 ->
  Z.land a (netmask p) = a / 2 ^ (32 - p) * 2 ^ (32 - p).
Proof.
  intros Ha Hp.
  rewrite <- Z.shiftr_div_pow2, <- Z.shiftl_mul_pow2 by lia.
  unfold netmask, ALL_ONES.
  replace (2 ^ 32 - 1) with (Z.ones 32) by reflexivity.
  apply Z.bits_inj'; intros i Hi.
  rewrite Z.land_spec, Z.lxor_spec, Z.shiftr_spec by lia.
  rewrite !Z.testbit_ones by lia.
  replace (0 <=? i) with true by (symmetry; apply Z.leb_le; lia).
  replace (0 <=? i + p) with true by (symmetry; apply Z.leb_le; lia).
  destruct (Z.lt_ge_cases i (32 - p)).
  - rewrite Z.shiftl_spec_low by lia.
    replace (i <? 32) with true by (symmetry; apply Z.ltb_lt; lia).
    replace (i + p <? 32) with true by (symmetry; apply Z.ltb_lt; lia).
    simpl. destruct (Z.testbit a i); reflexivity.
  - rewrite Z.shiftl_spec_high, Z.shiftr_spec by lia.
    replace (i - (32 - p) + (32 - p)) with i by lia.
    replace (i + p <? 32) with false by (symmetry; apply Z.ltb_ge; lia).
    destruct (Z.lt_ge_cases i 32).
    + replace (i <? 32) with true by (symmetry; apply Z.ltb_lt; lia).
      simpl. destruct (Z.testbit a i); reflexivity.
    + replace (i <? 32) with false by (symmetry; apply Z.ltb_ge; lia).
      simpl. rewrite andb_false_r.
      rewrite <- (Z.mod_small a (2 ^ 32)) by lia.
      symmetry. apply Z.mod_pow2_bits_high. lia.
Qed.

Lemma div_mul_block a K c :
  0 < K -> (a / K * K = c * K <-> c * K <= a <= c * K + K - 1).
Proof.
  intros HK.
  pose proof (Z.div_mod a K ltac:(lia)) as Hd.
  pose proof (Z.mod_pos_bound a K HK) as Hm.
  set (q := a / K) in *. set (r := a mod K) in *.
  split.
  - intros H. apply Z.mul_reg_r in H; [|lia]. subst q. nia.
  - intros H. f_equal. nia.
Qed.

Lemma net_contains_block n a :
  0 <= a < 2 ^ 32 -> 0 <= prefixlen n <= 32 ->
  network_address n mod 2 ^ (32 - prefixlen n) = 0 ->
  net_contains n a =
  in_block (network_address n)
    (network_address n + 2 ^ (32 - prefixlen n) - 1) a.
Proof.
  intros Ha Hp Hal. unfold net_contains, in_block.
  rewrite land_netmask by lia.
  set (K := 2 ^ (32 - prefixlen n)) in *.
  assert (HK : 0 < K) by (apply Z.pow_pos_nonneg; lia).
  pose proof (Z.div_mod (network_address n) K ltac:(lia)) as HN.
  rewrite Hal, Z.add_0_r in HN.
  set (c := network_address n / K) in *.
  rewrite HN.
  apply eq_iff_eq_true.
  rewrite Z.eqb_eq, andb_true_iff, !Z.leb_le.
  rewrite (Z.mul_comm K c).
  apply div_mul_block; exact HK.
Qed.


Ltac net_side := vm_compute; repeat split; try discriminate; try reflexivity.

Lemma rejected_blocks a :
  0 <= a < 2 ^ 32 -> rejected a = amended_rejected a.
Proof.
  intros Ha.
  unfold rejected, is_private, is_loopback, is_reserved, is_multicast,
    is_link_local, is_unspecified, _private_networks,
    _private_networks_exceptions, _loopback_network, _reserved_network,
    _multicast_network, _linklocal_network, _unspecified_address.
  cbn [existsb forallb].
  repeat (rewrite net_contains_block by (exact Ha || net_side)).
  unfold amended_rejected, in_block, net, ip4; cbn [network_address prefixlen].
  simpl.
  apply eq_iff_eq_true.
  rewrite ?orb_false_r, ?andb_true_r, !orb_true_iff, !andb_true_iff.
  rewrite ?negb_true_iff, ?Z.eqb_neq, ?Z.eqb_eq, ?Z.leb_le.
  lia.
Qed.

Lemma dec_value_aux_nonneg s acc : 0 <= acc -> 0 <= PyStr.dec_value_aux s acc.
Proof.
  revert acc; induction s as [|c r IH]; intros acc Hacc; simpl; [lia|].
  apply IH. lia.
Qed.

Lemma parse_octet_range o v : parse_octet o = Some v -> 0 <= v <= 255.
Proof.
  unfold parse_octet.
  destruct (String.eqb o ""); [discriminate|].
  destruct (negb _); [discriminate|].
  destruct (3 <? _)%nat; [discriminate|].
  destruct (negb _ && _); [discriminate|].
  destruct (255 <? PyStr.dec_value o) eqn:E; [discriminate|].
  intros H; injection H as <-.
  apply Z.ltb_ge in E.
  pose proof (dec_value_aux_nonneg o 0 ltac:(lia)). unfold PyStr.dec_value in *. lia.
Qed.

Lemma ipv4_of_string_range s a : ipv4_of_string s = Some a -> 0 <= a < 2 ^ 32.
Proof.
  unfold ipv4_of_string, ip_int_from_string.
  destruct (PyStr.contains_char "/" s); [discriminate|].
  destruct (String.eqb s ""); [discriminate|].
  destruct (PyStr.split_on "." s) as [|o1 [|o2 [|o3 [|o4 [|o5 r]]]]];
    simpl; try discriminate.
  destruct (parse_octet o1) as [v1|] eqn:E1;
  [|destruct (parse_octet o2), (parse_octet o3), (parse_octet o4);
    discriminate].
  destruct (parse_octet o2) as [v2|] eqn:E2;
  [|destruct (parse_octet o3), (parse_octet o4); discriminate].
  destruct (parse_octet o3) as [v3|] eqn:E3;
  [|destruct (parse_octet o4); discriminate].
  destruct (parse_octet o4) as [v4|] eqn:E4; [|discriminate].
  intros H; injection H as <-.
  apply parse_octet_range in E1, E2, E3, E4. lia.
Qed.

Lemma validate_ip_address_cases ipv6 s :
  Validators.validate_ip_address ipv6 s =
  match ipv4_of_string s with
  | None => raise (InvalidIPError s)
  | Some a => if rejected a then raise (PrivateIPError s) else Ok a
  end.
Proof.
  unfold Validators.validate_ip_address, Validators.ip_address, rejected.
  destruct (ipv4_of_string s) as [a|]; [|destruct (ipv6 s); reflexivity].
  destruct (is_private a), (is_loopback a), (is_reserved a), (is_multicast a),
    (is_link_local a), (is_unspecified a); reflexivity.
Qed.

(** C1 (as stated fails): the claim says every syntactically valid IPv4
    address outside 10/8, 172.16/12, 192.168/16, 127/8, 169.254/16, 224/4 and
    above, 0.0.0.0 and 255.255.255.255 passes validation.  192.0.2.1
    (TEST-NET-1) is such an address, and [validate_ip_address] rejects it
    with [PrivateIPError], because CPython's [is_private] covers it. *)
Lemma C1_counterexample :
  ~ (forall (ipv6 : string -> option Z) (s : string),
       (ipv4_of_string s = None ->
        Validators.validate_ip_address ipv6 s = raise (InvalidIPError s))
       /\ (forall a, ipv4_of_string s = Some a -> claimed_rejected a = true ->
           Validators.validate_ip_address ipv6 s = raise (PrivateIPError s))
       /\ (forall a, ipv4_of_string s = Some a -> claimed_rejected a = false ->
           Validators.validate_ip_address ipv6 s = Ok a)).
Proof.
  intros H.
  destruct (H no_ipv6 "192.0.2.1") as [_ [_ H3]].
  specialize (H3 (ip4 192 0 2 1) ltac:(vm_compute; reflexivity)
                 ltac:(vm_compute; reflexivity)).
  vm_compute in H3. discriminate H3.
Qed.

(** C1 (amended): [validate_ip_address] classifies every string.  A string
    that CPython's IPv4 parser rejects (not exactly four '.'-separated
    decimal octets of 1 to 3 ASCII digits, without leading zeros, each at
    most 255; this covers the empty string and every IPv6 literal) raises
    [InvalidIPError]; a parsed address in one of the blocks of
    [amended_rejected] (0/8, 10/8, 127/8, 169.254/16, 172.16/12, 192.0.0/24
    but for 192.0.0.9 and 192.0.0.10, 192.0.2/24, 192.168/16, 198.18/15,
    198.51.100/24, 203.0.113/24, 224.0.0.0 and above) raises
    [PrivateIPError]; every other parsed address is returned. *)
Theorem C1_validate_classifies :
  forall (ipv6 : string -> option Z) (s : string),
    (ipv4_of_string s = None ->
     Validators.validate_ip_address ipv6 s = raise (InvalidIPError s))
    /\ (forall a, ipv4_of_string s = Some a -> amended_rejected a = true ->
        Validators.validate_ip_address ipv6 s = raise (PrivateIPError s))
    /\ (forall a, ipv4_of_string s = Some a -> amended_rejected a = false ->
        Validators.validate_ip_address ipv6 s = Ok a).
Proof.
  intros ipv6 s. rewrite validate_ip_address_cases.
  split; [intros ->; reflexivity|].
  split; intros a Ha Hr; rewrite Ha;
    rewrite rejected_blocks by (exact (ipv4_of_string_range s a Ha));
    rewrite Hr; reflexivity.
Qed.

(** C3: every [GeolocationError] subclass fixes its status code and type
    string whatever its message arguments: InvalidIPError (400, invalid_ip),
    ClientIPDetectionError (400, client_ip_detection_failed), PrivateIPError
    (422, private_ip), IPNotFoundError (404, ip_not_found), RateLimitError
    (429, rate_limit_exceeded), ProviderUnavailableError (503,
    provider_unavailable). *)
Theorem C3_error_table :
  forall ip provider reason : string,
    (status_code (InvalidIPError ip), error_type (InvalidIPError ip))
      = (400, "invalid_ip")
    /\ (status_code ClientIPDetectionError, error_type ClientIPDetectionError)
      = (400, "client_ip_detection_failed")
    /\ (status_code (PrivateIPError ip), error_type (PrivateIPError ip))
      = (422, "private_ip")
    /\ (status_code (IPNotFoundError ip), error_type (IPNotFoundError ip))
      = (404, "ip_not_found")
    /\ (status_code (RateLimitError provider), error_type (RateLimitError provider))
      = (429, "rate_limit_exceeded")
    /\ (status_code (ProviderUnavailableError provider reason),
        error_type (ProviderUnavailableError provider reason))
      = (503, "provider_unavailable").
Proof. intros; repeat split. Qed.

(** C6: [is_valid_public_ipv4] never raises, and returns [True] exactly when
    [validate_ip_address] returns an address; both [InvalidIPError] and
    [PrivateIPError] give [False]. *)
Theorem C6_is_valid_public_ipv4 :
  forall (ipv6 : string -> option Z) (s : string),
    Validators.is_valid_public_ipv4 ipv6 s =
    Ok (match Validators.validate_ip_address ipv6 s with
        | Ok _ => true
        | Err _ => false
        end)
    /\ (Validators.is_valid_public_ipv4 ipv6 s = Ok true <->
        exists a, Validators.validate_ip_address ipv6 s = Ok a).
Proof.
  intros ipv6 s.
  assert (E : Validators.is_valid_public_ipv4 ipv6 s =
              Ok (match Validators.validate_ip_address ipv6 s with
                  | Ok _ => true | Err _ => false end)).
  { unfold Validators.is_valid_public_ipv4.
    rewrite validate_ip_address_cases.
    destruct (ipv4_of_string s); [destruct (rejected z)|]; reflexivity. }
  split; [exact E|]. rewrite E.
  destruct (Validators.validate_ip_address ipv6 s) as [a|e].
  - split; [eauto | reflexivity].
  - split; [discriminate | intros [a Ha]; discriminate].
Qed.

Module FixtureRuns.
Import Fixtures IPAPI.

Definition summary (r : result GeolocationResponse) : list string :=
  match r with
  | Ok g => [as_number g; as_name g; country_code g; city g]
  | Err e => match e with
             | EGeo g => [error_type g; message g]
             | _ => ["untyped"; exc_name e]
             end
  end.

Example run_google :
  summary (lookup_with (Response 200 "google") "8.8.8.8")
  = ["AS15169"; "GOOGLE"; "US"; "Mountain View"].
Proof. vm_compute. reflexivity. Qed.
Example run_cloudflare :
  summary (lookup_with (Response 200 "cloudflare") "1.1.1.1")
  = [""; ""; "AU"; "Brisbane"].
Proof. vm_compute. reflexivity. Qed.
Example run_429 :
  summary (lookup_with (Response 429 "google") "8.8.8.8")
  = ["rate_limit_exceeded"; "Rate limit exceeded for provider: ip-api.com"].
Proof. vm_compute. reflexivity. Qed.
Example run_503 :
  summary (lookup_with (Response 503 "") "8.8.8.8")
  = ["provider_unavailable"; "Geolocation provider ip-api.com is unavailable: HTTP 503"].
Proof. vm_compute. reflexivity. Qed.
Example run_badjson :
  summary (lookup_with (Response 200 "not json") "8.8.8.8")
  = ["provider_unavailable"; "Geolocation provider ip-api.com is unavailable: Invalid JSON response: Expecting value: line 1 column 1 (char 0)"].
Proof. vm_compute. reflexivity. Qed.
Example run_noquery :
  summary (lookup_with (Response 200 "nobody") "8.8.8.8")
  = ["provider_unavailable"; "Geolocation provider ip-api.com is unavailable: Unexpected error: KeyError"].
Proof. vm_compute. reflexivity. Qed.
Example run_exc :
  summary (lookup_with (Raises (EOther "Exception")) "8.8.8.8")
  = ["provider_unavailable"; "Geolocation provider ip-api.com is unavailable: Unexpected error: Exception"].
Proof. vm_compute. reflexivity. Qed.
End FixtureRuns.

Section ProviderProofs.
Import IPAPI.

Lemma handler_typed {A} (m : result A) :
  match handler m with
  | Ok _ => True
  | Err (EGeo g) => reraised (cls g) = true
  | Err _ => False
  end.
Proof.
  destruct m as [a|[g|n| |n]]; simpl; auto.
  destruct (reraised (cls g)) eqn:E; simpl; auto.
Qed.

Lemma bind_geo {A B} (m : result A) (k : A -> result B) g :
  bind m k = Err (EGeo g) -> m = Err (EGeo g) \/ exists a, m = Ok a /\ k a = Err (EGeo g).
Proof. destruct m as [a|e]; simpl; intros H; [right; eauto | left; injection H as ->; reflexivity]. Qed.

Ltac no_geo :=
  intros H;
  repeat match goal with
         | H : context [match ?x with _ => _ end] |- _ =>
             lazymatch x with
             | match _ with _ => _ end => fail
             | _ => destruct x; simpl in H
             end
         end; discriminate.

Lemma py_get_ngeo d k v g : py_get d k v = Err (EGeo g) -> False.
Proof. unfold py_get. no_geo. Qed.

Lemma py_getitem_ngeo d k g : py_getitem d k = Err (EGeo g) -> False.
Proof. unfold py_getitem. no_geo. Qed.

Lemma as_number_ngeo d g : as_number_of d = Err (EGeo g) -> False.
Proof. unfold as_number_of, py_get, py_split, py_index, bind. no_geo. Qed.

Lemma as_name_ngeo d g : as_name_of d = Err (EGeo g) -> False.
Proof. unfold as_name_of, py_get, py_split, bind. no_geo. Qed.

Lemma construct_ngeo ipv6 flt q c cc rg rc ci z la lo tz is o an am g :
  construct ipv6 flt q c cc rg rc ci z la lo tz is o an am = Err (EGeo g) -> False.
Proof.
  unfold construct. intros H.
  match type of H with (match ?x with _ => _ end) = _ => destruct x end;
    discriminate.
Qed.

(** With an HTTP client that raises only its own exceptions, the
    [GeolocationError]s the [try] body raises are the three it constructs. *)
Lemma lookup_body_geo ipv6 flt json client ip g :
  (forall u t g', client u t <> Raises (EGeo g')) ->
  lookup_body ipv6 flt json client ip = Err (EGeo g) ->
  g = RateLimitError name \/ g = IPNotFoundError ip
  \/ exists r, g = ProviderUnavailableError name r.
Proof.
  intros Hc. unfold lookup_body.
  destruct (client _ _) as [c b|e] eqn:E; simpl.
  - destruct (c =? 429); [unfold raise; intros H; injection H as <-; auto|].
    destruct (c >=? 500); [unfold raise; intros H; injection H as <-; eauto|].
    unfold parse_json. destruct (json b) as [v|e]; simpl;
      [|unfold raise; intros H; injection H as <-; eauto].
    intros H. apply bind_geo in H as [H|[st [_ H]]];
      [exfalso; eapply py_get_ngeo; eauto|].
    destruct (py_eq_str st "fail"); [unfold raise in H; injection H as <-; auto|].
    exfalso.
    repeat (apply bind_geo in H as [H|[? [_ H]]];
            [solve [eapply py_get_ngeo; eauto | eapply py_getitem_ngeo; eauto
                   | eapply as_number_ngeo; eauto | eapply as_name_ngeo; eauto]|]).
    eapply construct_ngeo; eauto.
  - intros H. injection H as ->. exfalso. eapply Hc. exact E.
Qed.

(** C2: each failure of [IPAPIProvider.get_geolocation] is one typed error,
    in the order the code tests them: status 429 gives [RateLimitError];
    otherwise a status of 500 or more gives [ProviderUnavailableError] whose
    message ends in "HTTP <code>"; otherwise a body that [json.loads]
    rejects gives [ProviderUnavailableError]; otherwise a parsed body with
    status "fail" gives [IPNotFoundError]; a timeout or connection error
    gives [ProviderUnavailableError] ("Network error"), any other exception
    [ProviderUnavailableError] ("Unexpected error"); and whatever happens,
    the call returns a record or raises one of [RateLimitError],
    [IPNotFoundError], [ProviderUnavailableError], never anything else.
    Past the response too: any exception of the [try] body other than the
    typed ones ([KeyError] on [data["query"]], [AttributeError] on a body
    that is not an object, [IndexError] in the "as" split, a
    [ValidationError] of [GeolocationResponse], ...) gives
    [ProviderUnavailableError] ("Unexpected error: <name>"); and with an HTTP
    client that raises only its own exceptions, each failure is exactly
    [RateLimitError], [IPNotFoundError] for the address, or
    [ProviderUnavailableError] of the provider. *)
Theorem C2_typed_failures :
  forall (ipv6 : string -> option Z) (flt : string -> option Q)
         (json : string -> pyval + string) (client : http_client) (ip : string),
    let url := BASE_URL ++ "/" ++ ip in
    let r := get_geolocation ipv6 flt json client ip in
    (forall body, client url DEFAULT_TIMEOUT = Response 429 body ->
       r = raise (RateLimitError name))
    /\ (forall c body, client url DEFAULT_TIMEOUT = Response c body -> 500 <= c ->
        r = raise (ProviderUnavailableError name ("HTTP " ++ PyStr.z_str c))
        /\ exists pre, message (ProviderUnavailableError name ("HTTP " ++ PyStr.z_str c))
                       = pre ++ PyStr.z_str c)
    /\ (forall c body detail, client url DEFAULT_TIMEOUT = Response c body ->
        c <> 429 -> c < 500 -> json body = inr detail ->
        r = raise (ProviderUnavailableError name ("Invalid JSON response: " ++ detail)))
    /\ (forall c body d, client url DEFAULT_TIMEOUT = Response c body ->
        c <> 429 -> c < 500 -> json body = inl (PDict d) ->
        lookup "status" d = Some (PStr "fail") ->
        r = raise (IPNotFoundError ip))
    /\ (forall n, client url DEFAULT_TIMEOUT = Raises (ETimeout n) ->
        r = raise (ProviderUnavailableError name ("Network error: " ++ n)))
    /\ (client url DEFAULT_TIMEOUT = Raises EConnectError ->
        r = raise (ProviderUnavailableError name "Network error: ConnectError"))
    /\ (forall n, client url DEFAULT_TIMEOUT = Raises (EOther n) ->
        r = raise (ProviderUnavailableError name ("Unexpected error: " ++ n)))
    /\ (forall n, lookup_body ipv6 flt json client ip = Err (EOther n) ->
        r = raise (ProviderUnavailableError name ("Unexpected error: " ++ n)))
    /\ ((forall u t g, client u t <> Raises (EGeo g)) ->
        forall e, r = Err e ->
        exists g, e = EGeo g
          /\ (g = RateLimitError name \/ g = IPNotFoundError ip
              \/ exists m, g = ProviderUnavailableError name m))
    /\ match r with
       | Ok _ => True
       | Err (EGeo g) => reraised (cls g) = true
       | Err _ => False
       end.
Proof.
  intros ipv6 flt json client ip url r.
  assert (Hother : forall n, lookup_body ipv6 flt json client ip = Err (EOther n) ->
            r = raise (ProviderUnavailableError name ("Unexpected error: " ++ n)))
    by (intros n; unfold r, get_geolocation; intros ->; reflexivity).
  assert (Hexact : (forall u t g, client u t <> Raises (EGeo g)) ->
            forall e, r = Err e ->
            exists g, e = EGeo g
              /\ (g = RateLimitError name \/ g = IPNotFoundError ip
                  \/ exists m, g = ProviderUnavailableError name m)).
  { intros Hc e. unfold r, get_geolocation.
    destruct (lookup_body ipv6 flt json client ip) as [a|[g|n| |n]] eqn:E;
      simpl; intros H; try discriminate.
    2-4: injection H as <-; eauto 6.
    destruct (reraised (cls g)); injection H as <-; [|eauto 6].
    exists g. split; [reflexivity|]. eapply lookup_body_geo; eauto. }
  unfold r, get_geolocation, lookup_body; fold url.
  split; [intros body ->; reflexivity|].
  split.
  { intros c body -> Hc. simpl.
    replace (c =? 429) with false by (symmetry; apply Z.eqb_neq; lia).
    replace (c >=? 500) with true by (symmetry; apply Z.geb_le; lia).
    split; [reflexivity|].
    exists "Geolocation provider ip-api.com is unavailable: HTTP ".
    reflexivity. }
  split.
  { intros c body detail -> H1 H2 Hj. simpl.
    replace (c =? 429) with false by (symmetry; apply Z.eqb_neq; lia).
    replace (c >=? 500) with false by (symmetry; rewrite Z.geb_leb; apply Z.leb_gt; lia).
    unfold parse_json. rewrite Hj. reflexivity. }
  split.
  { intros c body d -> H1 H2 Hj Hs. simpl.
    replace (c =? 429) with false by (symmetry; apply Z.eqb_neq; lia).
    replace (c >=? 500) with false by (symmetry; rewrite Z.geb_leb; apply Z.leb_gt; lia).
    unfold parse_json. rewrite Hj. simpl. rewrite Hs. reflexivity. }
  split; [intros n ->; reflexivity|].
  split; [intros ->; reflexivity|].
  split; [intros n ->; reflexivity|].
  split; [exact Hother|]. split; [exact Hexact|].
  apply handler_typed.
Qed.

(** C10: a body that parses, whose status is not "fail" and which has no
    "query" key, makes [data["query"]] raise [KeyError]; the last [except]
    turns it into [ProviderUnavailableError] ("Unexpected error: KeyError"),
    neither a record nor [IPNotFoundError]. *)
Theorem C10_missing_query :
  forall (ipv6 : string -> option Z) (flt : string -> option Q)
         (json : string -> pyval + string) (client : http_client)
         (ip : string) (c : Z) (body : string) (d : list (string * pyval)),
    client (BASE_URL ++ "/" ++ ip) DEFAULT_TIMEOUT = Response c body ->
    c <> 429 -> c < 500 ->
    json body = inl (PDict d) ->
    py_eq_str (match lookup "status" d with Some v => v | None => PNone end)
      "fail" = false ->
    lookup "query" d = None ->
    get_geolocation ipv6 flt json client ip =
    raise (ProviderUnavailableError name "Unexpected error: KeyError").
Proof.
  intros ipv6 flt json client ip c body d Hc H1 H2 Hj Hs Hq.
  unfold get_geolocation, lookup_body. rewrite Hc. simpl.
  replace (c =? 429) with false by (symmetry; apply Z.eqb_neq; lia).
  replace (c >=? 500) with false by (symmetry; rewrite Z.geb_leb; apply Z.leb_gt; lia).
  unfold parse_json. rewrite Hj. simpl. rewrite Hs, Hq. reflexivity.
Qed.







End ProviderProofs.

(** C7: [IPAPIProvider.check_health] never raises; it returns [True]
    exactly when the probe of 8.8.8.8 (timeout 3 s) returns a response with
    the success status 200 ([response.status_code == 200]), and [False] on
    every exception the probe raises, a timeout included. *)
Theorem C7_check_health :
  forall client : IPAPI.http_client,
    let probe := client (IPAPI.BASE_URL ++ "/8.8.8.8") 3 in
    (forall e, IPAPI.check_health client <> Err e)
    /\ (IPAPI.check_health client = Ok true <->
        exists body, probe = IPAPI.Response 200 body)
    /\ (forall e, probe = IPAPI.Raises e -> IPAPI.check_health client = Ok false).
Proof.
  intros client probe. unfold IPAPI.check_health; fold probe.
  split; [|split].
  - destruct probe; discriminate.
  - destruct probe as [c body|e].
    + split.
      * intros H. injection H as H. apply Z.eqb_eq in H. subst. eauto.
      * intros [b Hb]. injection Hb as -> _. reflexivity.
    + split; [discriminate | intros [b Hb]; discriminate].
  - intros e ->. reflexivity.
Qed.

Section ServiceProofs.
Import Service.

(** C4: [GeolocationService.geolocate_ip] runs the validator, then the
    provider.  For every provider: when [validate_ip_address] raises, the
    same exception comes out and the provider is not touched (its state is
    unchanged, so a counting test double still records zero calls); when
    it succeeds, the provider's [get_geolocation] result, record or
    exception, comes out unchanged. *)
Theorem C4_service_composition :
  forall (ipv6 : string -> option Z) (P : Type) `{IPGeolocationProvider P},
    (forall (svc : GeolocationService P) (ip_ : string) (e : exc),
       Validators.validate_ip_address ipv6 ip_ = Err e ->
       geolocate_ip ipv6 svc ip_ = (svc, Err e))
    /\ (forall (svc : GeolocationService P) (ip_ : string) (a : Z),
       Validators.validate_ip_address ipv6 ip_ = Ok a ->
       snd (geolocate_ip ipv6 svc ip_) = snd (get_geolocation (provider svc) ip_))
    /\ (forall (svc : GeolocationService (Counting P)) (ip_ : string) (e : exc),
       Validators.validate_ip_address ipv6 ip_ = Err e ->
       calls (provider (fst (geolocate_ip ipv6 svc ip_))) = calls (provider svc)
       /\ snd (geolocate_ip ipv6 svc ip_) = Err e)
    /\ (forall (svc : GeolocationService (Counting P)) (ip_ : string) (a : Z),
       Validators.validate_ip_address ipv6 ip_ = Ok a ->
       calls (provider (fst (geolocate_ip ipv6 svc ip_))) = S (calls (provider svc))).
Proof.
  intros ipv6 P HP.
  split; [|split; [|split]].
  - intros svc ip_ e He. unfold geolocate_ip. rewrite He. reflexivity.
  - intros svc ip_ a Ha. unfold geolocate_ip. rewrite Ha.
    destruct (get_geolocation (provider svc) ip_). reflexivity.
  - intros svc ip_ e He. unfold geolocate_ip. rewrite He. split; reflexivity.
  - intros svc ip_ a Ha. unfold geolocate_ip. rewrite Ha. simpl.
    destruct (get_geolocation (inner (provider svc)) ip_). reflexivity.
Qed.

End ServiceProofs.

Section ClientIPProofs.
Import ClientIP.

Lemma split_on_comma_head s :
  exists rest, PyStr.split_on "," s = first_token s :: rest.
Proof.
  induction s as [|x r [rest IH]]; simpl; [eauto|].
  destruct (Ascii.eqb x ","); [eauto|].
  rewrite IH. eauto.
Qed.

Lemma get_client_ip_spec r : get_client_ip r = client_ip_spec r.
Proof.
  unfold get_client_ip, client_ip_spec, peer.
  destruct (headers_get r "X-Forwarded-For") as [f|]; simpl.
  - destruct (String.eqb f "") eqn:Ef; simpl.
    + destruct (headers_get r "X-Real-IP") as [x|]; simpl.
      * destruct (String.eqb x ""); simpl; [|reflexivity].
        destruct (client r) as [[h p]|]; simpl; [|reflexivity].
        destruct (String.eqb h ""); reflexivity.
      * destruct (client r) as [[h p]|]; simpl; [|reflexivity].
        destruct (String.eqb h ""); reflexivity.
    + destruct (split_on_comma_head f) as [rest ->]. reflexivity.
  - destruct (headers_get r "X-Real-IP") as [x|]; simpl.
    + destruct (String.eqb x ""); simpl; [|reflexivity].
      destruct (client r) as [[h p]|]; simpl; [|reflexivity].
      destruct (String.eqb h ""); reflexivity.
    + destruct (client r) as [[h p]|]; simpl; [|reflexivity].
      destruct (String.eqb h ""); reflexivity.
Qed.

(** C8: [get_client_ip] takes the first usable source (present and
    non-empty) by priority: the text of X-Forwarded-For before its first
    comma, stripped; else X-Real-IP, stripped; else the transport peer
    host; it raises [ClientIPDetectionError] exactly when none of the three
    is usable, and does not validate what it returns.
    "8.8.8.8, 10.0.0.1" gives "8.8.8.8". *)
Theorem C8_client_ip_priority :
  (forall r : Request, get_client_ip r = client_ip_spec r)
  /\ (forall r : Request,
        get_client_ip r = raise ClientIPDetectionError <->
        usable (headers_get r "X-Forwarded-For") = false
        /\ usable (headers_get r "X-Real-IP") = false
        /\ usable (peer r) = false)
  /\ get_client_ip {| headers := [("x-forwarded-for", "8.8.8.8, 10.0.0.1")];
                      client := None |} = Ok "8.8.8.8"
  /\ get_client_ip {| headers := [("x-real-ip", " not-an-ip ")];
                      client := Some {| host := "10.0.0.1"; port := 5000 |} |}
     = Ok "not-an-ip".
Proof.
  split; [exact get_client_ip_spec|].
  split; [|split; vm_compute; reflexivity].
  intros r. rewrite get_client_ip_spec. unfold client_ip_spec.
  destruct (usable (headers_get r "X-Forwarded-For")),
           (usable (headers_get r "X-Real-IP")), (usable (peer r));
    simpl; split; try discriminate; try (intros [? [? ?]]; discriminate);
    auto.
Qed.

Lemma header_lookup_without k k' hs :
  header_lookup k' (filter (fun kv => negb (String.eqb (fst kv) k)) hs) =
  if String.eqb k' k then None else header_lookup k' hs.
Proof.
  induction hs as [|[k0 v] hs IH]; simpl.
  - destruct (String.eqb k' k); reflexivity.
  - destruct (String.eqb k0 k) eqn:E0; simpl.
    + apply String.eqb_eq in E0. subst k0. rewrite IH.
      destruct (String.eqb k' k); reflexivity.
    + rewrite IH. destruct (String.eqb k' k) eqn:E; [|reflexivity].
      apply String.eqb_eq in E. subst k'.
      rewrite (String.eqb_sym k k0), E0. reflexivity.
Qed.

Lemma headers_get_without k r key :
  headers_get (without_header k r) key =
  if String.eqb (PyStr.lower key) k then None else headers_get r key.
Proof. unfold headers_get, without_header. simpl. apply header_lookup_without. Qed.

(** C9: an X-Forwarded-For header whose value is "" is treated as absent
    (the result is that of the same request without the header), while a
    non-empty X-Forwarded-For whose text before the first comma strips to
    "" (e.g. ", 1.2.3.4") gives the empty string, not the later sources. *)
Theorem C9_forwarded_edge_cases :
  (forall r : Request, headers_get r "X-Forwarded-For" = Some "" ->
     get_client_ip r = get_client_ip (without_header "x-forwarded-for" r))
  /\ (forall (r : Request) (v : string),
        headers_get r "X-Forwarded-For" = Some v -> v <> "" ->
        PyStr.strip (first_token v) = "" -> get_client_ip r = Ok "")
  /\ get_client_ip {| headers := [("x-forwarded-for", ", 1.2.3.4");
                                  ("x-real-ip", "5.6.7.8")];
                      client := Some {| host := "9.9.9.9"; port := 443 |} |}
     = Ok "".
Proof.
  split; [|split; [|vm_compute; reflexivity]].
  - intros r Hx. unfold get_client_ip.
    rewrite !headers_get_without, Hx.
    replace (String.eqb (PyStr.lower "X-Forwarded-For") "x-forwarded-for")
      with true by reflexivity.
    replace (String.eqb (PyStr.lower "X-Real-IP") "x-forwarded-for")
      with false by reflexivity.
    reflexivity.
  - intros r v Hx Hne Hs. unfold get_client_ip. rewrite Hx. simpl.
    destruct (String.eqb v "") eqn:E; [apply String.eqb_eq in E; contradiction|].
    destruct (split_on_comma_head v) as [rest ->]. rewrite Hs. reflexivity.
Qed.

End ClientIPProofs.

(** Witness of C10: the body {"status": "success"} answered with HTTP 200. *)
Lemma C10_witness :
  IPAPI.get_geolocation no_ipv6 Fixtures.no_float Fixtures.fixture_json
    (Fixtures.mock (IPAPI.Response 200 "nobody")) "8.8.8.8"
  = raise (ProviderUnavailableError IPAPI.name "Unexpected error: KeyError").
Proof.
  apply (C10_missing_query no_ipv6 Fixtures.no_float Fixtures.fixture_json
           (Fixtures.mock (IPAPI.Response 200 "nobody")) "8.8.8.8" 200 "nobody"
           [("status", PStr "success")]);
    first [reflexivity | lia | vm_compute; reflexivity].
Defined.

(* ------------------------------------------------------------------ *)
(** ** [str(IPv4Address)] and [IPv4Address(str)] *)

Section RoundTrip.

Lemma octet_ok_all v : 0 <= v <= 255 -> octet_ok v = true.
Proof.
  intros Hv.
  assert (Hall : forallb octet_ok (map Z.of_nat (seq 0 256)) = true)
    by (vm_compute; reflexivity).
  rewrite forallb_forall in Hall. apply Hall, in_map_iff.
  exists (Z.to_nat v). split; [lia | apply in_seq; lia].
Qed.

Lemma octet_facts v : 0 <= v <= 255 ->
  parse_octet (PyStr.z_str v) = Some v
  /\ PyStr.contains_char "." (PyStr.z_str v) = false
  /\ PyStr.contains_char "/" (PyStr.z_str v) = false
  /\ PyStr.z_str v <> "".
Proof.
  intros Hv. pose proof (octet_ok_all v Hv) as H. unfold octet_ok in H.
  destruct (parse_octet (PyStr.z_str v)) as [w|]; [|discriminate].
  apply andb_prop in H as [H H4]. apply andb_prop in H as [H H3].
  apply andb_prop in H as [H1 H2].
  apply Z.eqb_eq in H1. apply negb_true_iff in H2, H3, H4.
  split; [congruence|]. split; [assumption|]. split; [assumption|].
  intros E. rewrite E in H4. discriminate.
Qed.

Lemma digit_char c : PyStr.is_ascii_digit c = true ->
  exists d, (d < 10)%nat /\ c = digit d.
Proof.
  unfold PyStr.is_ascii_digit, digit. intros H.
  apply andb_prop in H as [H1 H2]. apply Nat.leb_le in H1, H2.
  exists (nat_of_ascii c - 48)%nat. split; [lia|].
  replace (48 + (nat_of_ascii c - 48))%nat with (nat_of_ascii c) by lia.
  symmetry. apply ascii_nat_embedding.
Qed.

Lemma parse_octet_shape o v : parse_octet o = Some v ->
  PyStr.forall_chars PyStr.is_ascii_digit o = true /\ (String.length o <= 3)%nat.
Proof.
  unfold parse_octet.
  destruct (String.eqb o ""); [discriminate|].
  destruct (PyStr.forall_chars PyStr.is_ascii_digit o); [|discriminate].
  destruct (3 <? String.length o)%nat eqn:E; [discriminate|].
  apply Nat.ltb_ge in E. auto.
Qed.

Lemma parse_octet_canon o v : parse_octet o = Some v -> PyStr.z_str v = o.
Proof.
  intros H.
  assert (Hall : forallb canon_ok digit_strings = true) by (vm_compute; reflexivity).
  rewrite forallb_forall in Hall.
  assert (Hin : In o digit_strings).
  { destruct (parse_octet_shape o v H) as [Hd Hl].
    destruct o as [|c1 [|c2 [|c3 [|c4 r]]]]; simpl in Hd, Hl.
    - discriminate.
    - rewrite andb_true_r in Hd.
      destruct (digit_char c1 Hd) as [d1 [L1 ->]].
      apply in_or_app; left. apply in_map_iff. exists d1.
      split; [reflexivity | apply in_seq; lia].
    - rewrite andb_true_r in Hd. apply andb_prop in Hd as [D1 D2].
      destruct (digit_char c1 D1) as [d1 [L1 ->]].
      destruct (digit_char c2 D2) as [d2 [L2 ->]].
      apply in_or_app; right; apply in_or_app; left.
      apply in_flat_map. exists d1. split; [apply in_seq; lia|].
      apply in_map_iff. exists d2. split; [reflexivity | apply in_seq; lia].
    - rewrite andb_true_r in Hd. apply andb_prop in Hd as [D1 D23].
      apply andb_prop in D23 as [D2 D3].
      destruct (digit_char c1 D1) as [d1 [L1 ->]].
      destruct (digit_char c2 D2) as [d2 [L2 ->]].
      destruct (digit_char c3 D3) as [d3 [L3 ->]].
      apply in_or_app; right; apply in_or_app; right.
      apply in_flat_map. exists d1. split; [apply in_seq; lia|].
      apply in_flat_map. exists d2. split; [apply in_seq; lia|].
      apply in_map_iff. exists d3. split; [reflexivity | apply in_seq; lia].
    - lia. }
  specialize (Hall o Hin). unfold canon_ok in Hall. rewrite H in Hall.
  apply String.eqb_eq in Hall. exact Hall.
Qed.

Lemma split_on_nonempty c s : PyStr.split_on c s <> [].
Proof.
  destruct s as [|x r]; simpl; [discriminate|].
  destruct (Ascii.eqb x c); [discriminate|].
  destruct (PyStr.split_on c r); discriminate.
Qed.

Lemma join_cons sep x l : l <> [] -> PyStr.join sep (x :: l) = x ++ sep ++ PyStr.join sep l.
Proof. destruct l; [contradiction|reflexivity]. Qed.

(** ['sep'.join(s.split(sep)) == s] *)
Lemma join_split c s : PyStr.join (String c "") (PyStr.split_on c s) = s.
Proof.
  induction s as [|x r IH]; [reflexivity|]. simpl.
  destruct (Ascii.eqb x c) eqn:E.
  - apply Ascii.eqb_eq in E as ->.
    rewrite join_cons by apply split_on_nonempty. simpl. rewrite IH. reflexivity.
  - pose proof (split_on_nonempty c r) as Hne.
    destruct (PyStr.split_on c r) as [|h t]; [contradiction|].
    destruct t as [|h' t]; simpl in *; rewrite <- IH; reflexivity.
Qed.

Lemma split_on_no_sep c s : PyStr.contains_char c s = false -> PyStr.split_on c s = [s].
Proof.
  induction s as [|x r IH]; [reflexivity|]. simpl.
  intros H. apply orb_false_iff in H as [H1 H2]. rewrite H1, IH by exact H2.
  reflexivity.
Qed.

Lemma split_on_app c s1 s2 : PyStr.contains_char c s1 = false ->
  PyStr.split_on c (s1 ++ String c s2) = s1 :: PyStr.split_on c s2.
Proof.
  induction s1 as [|x r IH]; simpl.
  - rewrite Ascii.eqb_refl. reflexivity.
  - intros H. apply orb_false_iff in H as [H1 H2]. rewrite H1, IH by exact H2.
    reflexivity.
Qed.

Lemma contains_char_app c s1 s2 :
  PyStr.contains_char c (s1 ++ s2) = PyStr.contains_char c s1 || PyStr.contains_char c s2.
Proof. induction s1 as [|x r IH]; simpl; [reflexivity|]. rewrite IH, orb_assoc. reflexivity. Qed.

Lemma byte_eq a k : 0 <= k ->
  Z.land (Z.shiftr a (8 * k)) 255 = (a / 2 ^ (8 * k)) mod 256.
Proof.
  intros Hk. change 255 with (Z.ones 8).
  rewrite Z.land_ones, Z.shiftr_div_pow2 by lia. reflexivity.
Qed.

Lemma bytes_of_int a : 0 <= a < 2 ^ 32 ->
  a = ((Z.land (Z.shiftr a (8 * 3)) 255 * 256 + Z.land (Z.shiftr a (8 * 2)) 255) * 256
       + Z.land (Z.shiftr a (8 * 1)) 255) * 256 + Z.land (Z.shiftr a (8 * 0)) 255.
Proof.
  intros Ha. rewrite !byte_eq by lia. cbn [Z.mul Z.pow Z.pow_pos Pos.iter].
  Z.div_mod_to_equations. lia.
Qed.

Lemma int_of_bytes v1 v2 v3 v4 :
  0 <= v1 <= 255 -> 0 <= v2 <= 255 -> 0 <= v3 <= 255 -> 0 <= v4 <= 255 ->
  let a := ((v1 * 256 + v2) * 256 + v3) * 256 + v4 in
  Z.land (Z.shiftr a (8 * 3)) 255 = v1 /\ Z.land (Z.shiftr a (8 * 2)) 255 = v2
  /\ Z.land (Z.shiftr a (8 * 1)) 255 = v3 /\ Z.land (Z.shiftr a (8 * 0)) 255 = v4.
Proof.
  intros H1 H2 H3 H4 a. unfold a. rewrite !byte_eq by lia.
  cbn [Z.mul Z.pow Z.pow_pos Pos.iter].
  split; [|split; [|split]]; Z.div_mod_to_equations; lia.
Qed.

Lemma byte_range a k : 0 <= k -> 0 <= Z.land (Z.shiftr a (8 * k)) 255 <= 255.
Proof.
  intros Hk. rewrite byte_eq by exact Hk.
  pose proof (Z.mod_pos_bound (a / 2 ^ (8 * k)) 256). lia.
Qed.

Lemma ipv4_of_join o1 o2 o3 o4 v1 v2 v3 v4 :
  parse_octet o1 = Some v1 -> parse_octet o2 = Some v2 ->
  parse_octet o3 = Some v3 -> parse_octet o4 = Some v4 ->
  PyStr.contains_char "." o1 = false -> PyStr.contains_char "." o2 = false ->
  PyStr.contains_char "." o3 = false -> PyStr.contains_char "." o4 = false ->
  PyStr.contains_char "/" o1 = false -> PyStr.contains_char "/" o2 = false ->
  PyStr.contains_char "/" o3 = false -> PyStr.contains_char "/" o4 = false ->
  o1 <> "" ->
  ipv4_of_string (PyStr.join "." [o1; o2; o3; o4])
  = Some (((v1 * 256 + v2) * 256 + v3) * 256 + v4).
Proof.
  intros P1 P2 P3 P4 D1 D2 D3 D4 S1 S2 S3 S4 Ne.
  unfold ipv4_of_string, ip_int_from_string. cbn [PyStr.join append].
  repeat (rewrite contains_char_app; cbn [PyStr.contains_char]).
  rewrite S1, S2, S3, S4. cbn.
  destruct o1 as [|x1 r1]; [contradiction|]. cbn [String.eqb].
  rewrite !split_on_app, (split_on_no_sep "." o4 D4) by assumption.
  cbn [List.length Nat.eqb negb fold_left]. rewrite P1, P2, P3, P4. reflexivity.
Qed.

End RoundTrip.

(** [str(IPv4Address(s)) == s] and [IPv4Address(str(a)) == a]: every 32-bit
    integer prints as a dotted quad that parses back to it, every string the
    parser accepts is the printing of the integer it denotes (no leading
    zeros, no other spelling), and so the address [validate_ip_address]
    returns prints as its input. *)
Theorem ipv4_string_round_trip :
  (forall a, 0 <= a < 2 ^ 32 -> ipv4_of_string (_string_from_ip_int a) = Some a)
  /\ (forall s a, ipv4_of_string s = Some a -> _string_from_ip_int a = s)
  /\ (forall (ipv6 : string -> option Z) s a,
        Validators.validate_ip_address ipv6 s = Ok a -> _string_from_ip_int a = s).
Proof.
  assert (Back : forall s a, ipv4_of_string s = Some a -> _string_from_ip_int a = s).
  { intros s a. unfold ipv4_of_string, ip_int_from_string.
    destruct (PyStr.contains_char "/" s); [discriminate|].
    destruct (String.eqb s ""); [discriminate|].
    pose proof (join_split "." s) as Hs. revert Hs.
    destruct (PyStr.split_on "." s) as [|o1 [|o2 [|o3 [|o4 [|o5 r]]]]];
      simpl; intros Hs; try discriminate.
    destruct (parse_octet o1) as [v1|] eqn:E1;
    [|destruct (parse_octet o2), (parse_octet o3), (parse_octet o4); discriminate].
    destruct (parse_octet o2) as [v2|] eqn:E2;
    [|destruct (parse_octet o3), (parse_octet o4); discriminate].
    destruct (parse_octet o3) as [v3|] eqn:E3; [|destruct (parse_octet o4); discriminate].
    destruct (parse_octet o4) as [v4|] eqn:E4; [|discriminate].
    intros H; injection H as <-.
    pose proof (parse_octet_range _ _ E1). pose proof (parse_octet_range _ _ E2).
    pose proof (parse_octet_range _ _ E3). pose proof (parse_octet_range _ _ E4).
    destruct (int_of_bytes v1 v2 v3 v4) as [B1 [B2 [B3 B4]]]; try lia.
    unfold _string_from_ip_int. cbn [map]. rewrite B1, B2, B3, B4.
    rewrite (parse_octet_canon _ _ E1), (parse_octet_canon _ _ E2),
      (parse_octet_canon _ _ E3), (parse_octet_canon _ _ E4).
    exact Hs. }
  split; [|split; [exact Back|]].
  - intros a Ha. unfold _string_from_ip_int. cbn [map].
    destruct (octet_facts _ (byte_range a 3 ltac:(lia))) as [P1 [D1 [S1 N1]]].
    destruct (octet_facts _ (byte_range a 2 ltac:(lia))) as [P2 [D2 [S2 _]]].
    destruct (octet_facts _ (byte_range a 1 ltac:(lia))) as [P3 [D3 [S3 _]]].
    destruct (octet_facts _ (byte_range a 0 ltac:(lia))) as [P4 [D4 [S4 _]]].
    rewrite (ipv4_of_join _ _ _ _ _ _ _ _ P1 P2 P3 P4 D1 D2 D3 D4 S1 S2 S3 S4 N1).
    f_equal. symmetry. apply bytes_of_int. exact Ha.
  - intros ipv6 s a. rewrite validate_ip_address_cases.
    destruct (ipv4_of_string s) as [b|] eqn:E; [|discriminate].
    destruct (rejected b); [discriminate|].
    intros H; injection H as <-. apply Back. exact E.
Qed.

(* ------------------------------------------------------------------ *)
(** ** The [HTTPClient] singleton *)

Section HTTPClientProofs.

Import HTTPClient.

Lemma run_built ops st : built st ->
  built (snd (run ops st))
  /\ (next_id st <= next_id (snd (run ops st)))%nat
  /\ Forall (fun c => (c < next_id (snd (run ops st)))%nat) (fst (run ops st)).
Proof.
  revert st. induction ops as [|o ops IH]; intros st Hb; simpl.
  - split; [exact Hb|]. split; [lia|constructor].
  - destruct o.
    + unfold get_client.
      destruct (_client st) as [c|] eqn:Ec.
      * destruct (run ops st) as [cs st2] eqn:Er.
        destruct (IH st Hb) as [B [L F]]. rewrite Er in B, L, F. simpl in *.
        split; [exact B|]. split; [exact L|].
        constructor; [specialize (Hb c Ec); lia | exact F].
      * set (st1 := {| _client := Some (next_id st); next_id := S (next_id st) |}).
        assert (B1 : built st1) by (intros c Hc; simpl in Hc; injection Hc as <-; simpl; lia).
        destruct (run ops st1) as [cs st2] eqn:Er.
        destruct (IH st1 B1) as [B [L F]]. rewrite Er in B, L, F. simpl in *.
        split; [exact B|]. split; [lia|].
        constructor; [lia | exact F].
    + assert (Bc : built (close_client st)).
      { unfold close_client. destruct (_client st); [intros c Hc; discriminate | exact Hb]. }
      assert (Nc : next_id (close_client st) = next_id st).
      { unfold close_client. destruct (_client st); reflexivity. }
      destruct (IH _ Bc) as [B [L F]]. rewrite Nc in L. auto.
Qed.

(** [get_client] is get-or-create: any number of calls with no
    [close_client] in between return one and the same client, and only the
    first call can construct it. *)
Theorem http_client_singleton :
  forall (n : nat) (st : State),
    fst (run (repeat GetClient n) st) = repeat (fst (get_client st)) n
    /\ snd (run (repeat GetClient (S n)) st) = snd (get_client st).
Proof.
  intros n st.
  assert (Fix : forall st', _client st' <> None -> get_client st' = (fst (get_client st'), st')).
  { intros st' H. unfold get_client. destruct (_client st'); [reflexivity|contradiction]. }
  assert (Some1 : _client (snd (get_client st)) = Some (fst (get_client st))).
  { unfold get_client. destruct (_client st) eqn:E; [exact E | reflexivity]. }
  assert (Gen : forall m st', _client st' <> None ->
            run (repeat GetClient m) st' = (repeat (fst (get_client st')) m, st')).
  { induction m as [|m IH]; intros st' H; [reflexivity|].
    simpl. rewrite (Fix st' H). rewrite (IH st' H). reflexivity. }
  destruct n as [|n]; simpl.
  - split; [reflexivity|].
    destruct (get_client st) as [c st1]. reflexivity.
  - destruct (get_client st) as [c st1] eqn:Eg. simpl in Some1.
    assert (Hn : _client st1 <> None) by (rewrite Some1; discriminate).
    assert (F1 : fst (get_client st1) = c).
    { rewrite (Fix st1 Hn). unfold get_client. rewrite Some1. reflexivity. }
    rewrite !(Gen _ st1 Hn), F1. simpl.
    rewrite (Fix st1 Hn). rewrite (Gen n st1 Hn). split; reflexivity.
Qed.

(** After [close_client] (the shutdown hook), the next [get_client] builds a
    new client: from the initial state, whatever calls came before, the
    client returned after a [close_client] is none of the clients returned
    earlier. *)
Theorem http_client_close_fresh :
  forall (ops : list op) (c : nat),
    In c (fst (run ops initial)) ->
    c <> fst (get_client (close_client (snd (run ops initial)))).
Proof.
  intros ops c Hin.
  assert (B0 : built initial) by (intros c' H; discriminate).
  destruct (run_built ops initial B0) as [_ [_ F]].
  rewrite Forall_forall in F. specialize (F c Hin).
  unfold close_client, get_client.
  destruct (_client (snd (run ops initial))) eqn:E; simpl; [|rewrite E; simpl]; lia.
Qed.

End HTTPClientProofs.

(* ------------------------------------------------------------------ *)
(** ** The provider's exceptions, and the application's responses *)

Section AppProofs.

Import IPAPI.


Lemma respond_geo renders g :
  Main.respond renders (Err (EGeo g))
  = Main.JSONError (status_code g) (Main.error_content g).
Proof. reflexivity. Qed.

Ltac documented g :=
  exists g; split; [reflexivity | split; [reflexivity | simpl; auto 10]].

Lemma geolocate_ip_endpoint_doc ipv6 flt json renders (client : http_client) ip :
  (forall u t g, client u t <> Raises (EGeo g)) ->
  match Main.geolocate_ip_endpoint ipv6 flt json renders client ip with
  | Main.JSON200 _ => True
  | Main.JSONError s content =>
      exists g, content = Main.error_content g /\ s = status_code g
        /\ In (status_code g, error_type g)
             [(400, "invalid_ip"); (422, "private_ip"); (404, "ip_not_found");
              (429, "rate_limit_exceeded"); (503, "provider_unavailable")]
  | Main.InternalServerError =>
      exists g, get_geolocation ipv6 flt json client ip = Ok g /\ renders g = false
  end.
Proof.
  intros Hc. unfold Main.geolocate_ip_endpoint, Service.geolocate_ip.
  rewrite validate_ip_address_cases.
  destruct (ipv4_of_string ip) as [a|].
  2: { unfold raise. cbn [snd]. rewrite respond_geo. documented (InvalidIPError ip). }
  destruct (rejected a).
  { unfold raise. cbn [snd]. rewrite respond_geo. documented (PrivateIPError ip). }
  cbn [snd Service.get_geolocation Main.provider_inst Service.ipapi_provider
       Service.provider Main.default_service Service.client].
  destruct (get_geolocation ipv6 flt json client ip) as [r|e] eqn:E.
  { unfold Main.respond. destruct (renders r) eqn:Er; [exact I|]. eauto. }
  unfold get_geolocation in E.
  destruct (lookup_body ipv6 flt json client ip) as [r|e0] eqn:L; simpl in E;
    [discriminate|].
  destruct e0 as [g0|n| |n]; simpl in E.
  - destruct (reraised (cls g0)); injection E as <-; rewrite respond_geo.
    + destruct (lookup_body_geo _ _ _ _ _ _ Hc L) as [->|[->|[r ->]]].
      * documented (RateLimitError name).
      * documented (IPNotFoundError ip).
      * documented (ProviderUnavailableError name r).
    + documented (ProviderUnavailableError name
                    ("Unexpected error: " ++ exc_name (EGeo g0))).
  - injection E as <-. rewrite respond_geo.
    documented (ProviderUnavailableError name ("Network error: " ++ n)).
  - injection E as <-. rewrite respond_geo.
    documented (ProviderUnavailableError name ("Network error: " ++ exc_name EConnectError)).
  - injection E as <-. rewrite respond_geo.
    documented (ProviderUnavailableError name ("Unexpected error: " ++ n)).
Qed.

End AppProofs.

Section EndpointProofs.

Import IPAPI.

Lemma get_client_ip_err r e :
  ClientIP.get_client_ip r = Err e -> e = EGeo ClientIPDetectionError.
Proof.
  rewrite get_client_ip_spec. unfold ClientIP.client_ip_spec.
  destruct (ClientIP.usable (ClientIP.headers_get r "X-Forwarded-For"));
    [discriminate|].
  destruct (ClientIP.usable (ClientIP.headers_get r "X-Real-IP")); [discriminate|].
  destruct (ClientIP.usable (ClientIP.peer r)); [discriminate|].
  unfold raise. intros H; injection H as <-. reflexivity.
Qed.

(** [GET /geolocate/{ip}] answers with one of the statuses its route
    declares, or a 500 only from rendering a record: 200 with a record; or
    the JSON error body {"error": {"type", "message", "field": null}} of a
    [GeolocationError] whose status and type are one of 400 "invalid_ip",
    422 "private_ip", 404 "ip_not_found", 429 "rate_limit_exceeded", 503
    "provider_unavailable"; a 500 happens only when the provider returned a
    record that [JSONResponse] fails to render, never from an exception of
    the route, as long as the HTTP client raises only its own
    exceptions. *)
Theorem geolocate_ip_endpoint_statuses :
  forall (ipv6 : string -> option Z) (flt : string -> option Q)
         (json : string -> pyval + string) (renders : GeolocationResponse -> bool)
         (client : http_client) (ip : string),
    (forall u t g, client u t <> Raises (EGeo g)) ->
    match Main.geolocate_ip_endpoint ipv6 flt json renders client ip with
    | Main.JSON200 _ => True
    | Main.JSONError s content =>
        exists g, content = Main.error_content g /\ s = status_code g
          /\ In (status_code g, error_type g)
               [(400, "invalid_ip"); (422, "private_ip"); (404, "ip_not_found");
                (429, "rate_limit_exceeded"); (503, "provider_unavailable")]
    | Main.InternalServerError =>
        exists g, get_geolocation ipv6 flt json client ip = Ok g /\ renders g = false
    end.
Proof.
  intros ipv6 flt json renders client ip Hc.
  apply geolocate_ip_endpoint_doc. exact Hc.
Qed.

Lemma geolocate_ip_endpoint_statuses_witness :
  (forall u t g, Fixtures.mock (Raises EConnectError) u t <> Raises (EGeo g))
  /\ match Main.geolocate_ip_endpoint no_ipv6 Fixtures.no_float
              Fixtures.fixture_json (fun _ => true)
              (Fixtures.mock (Raises EConnectError)) "8.8.8.8"
     with
     | Main.JSON200 _ => True
     | Main.JSONError s content =>
         exists g, content = Main.error_content g /\ s = status_code g
           /\ In (status_code g, error_type g)
                [(400, "invalid_ip"); (422, "private_ip"); (404, "ip_not_found");
                 (429, "rate_limit_exceeded"); (503, "provider_unavailable")]
     | Main.InternalServerError =>
         exists g, get_geolocation no_ipv6 Fixtures.no_float Fixtures.fixture_json
                     (Fixtures.mock (Raises EConnectError)) "8.8.8.8" = Ok g
                   /\ (fun _ => true) g = false
     end.
Proof.
  split; [intros u t g; discriminate|].
  apply (geolocate_ip_endpoint_statuses no_ipv6 Fixtures.no_float
           Fixtures.fixture_json (fun _ => true)
           (Fixtures.mock (Raises EConnectError)) "8.8.8.8").
  intros u t g; discriminate.
Defined.

(** [GET /geolocate]: the same, plus 400 "client_ip_detection_failed" when
    the [get_client_ip] dependency finds no address; the dependency's
    [split(",")[0]] never raises, so a 500 happens only when the provider
    returned a record, for the address the dependency found, that
    [JSONResponse] fails to render. *)
Theorem geolocate_client_ip_endpoint_statuses :
  forall (ipv6 : string -> option Z) (flt : string -> option Q)
         (json : string -> pyval + string) (renders : GeolocationResponse -> bool)
         (client : http_client) (request : ClientIP.Request),
    (forall u t g, client u t <> Raises (EGeo g)) ->
    match Main.geolocate_client_ip_endpoint ipv6 flt json renders client request with
    | Main.JSON200 _ => True
    | Main.JSONError s content =>
        exists g, content = Main.error_content g /\ s = status_code g
          /\ In (status_code g, error_type g)
               [(400, "client_ip_detection_failed"); (400, "invalid_ip");
                (422, "private_ip"); (404, "ip_not_found");
                (429, "rate_limit_exceeded"); (503, "provider_unavailable")]
    | Main.InternalServerError =>
        exists ip g, ClientIP.get_client_ip request = Ok ip
          /\ get_geolocation ipv6 flt json client ip = Ok g /\ renders g = false
    end.
Proof.
  intros ipv6 flt json renders client request Hc.
  unfold Main.geolocate_client_ip_endpoint.
  destruct (ClientIP.get_client_ip request) as [ip|e] eqn:E.
  - pose proof (geolocate_ip_endpoint_doc ipv6 flt json renders client ip Hc) as D.
    destruct (Main.geolocate_ip_endpoint ipv6 flt json renders client ip); auto.
    + destruct D as [g [H1 [H2 H3]]]. exists g. split; [exact H1|].
      split; [exact H2|]. right. exact H3.
    + destruct D as [g [H1 H2]]. exists ip, g. auto.
  - apply get_client_ip_err in E as ->. rewrite respond_geo.
    exists ClientIPDetectionError.
    split; [reflexivity | split; [reflexivity | left; reflexivity]].
Qed.

Lemma geolocate_client_ip_endpoint_statuses_witness :
  (forall u t g, Fixtures.mock (Raises EConnectError) u t <> Raises (EGeo g))
  /\ match Main.geolocate_client_ip_endpoint no_ipv6 Fixtures.no_float
              Fixtures.fixture_json (fun _ => true)
              (Fixtures.mock (Raises EConnectError))
              {| ClientIP.headers := []; ClientIP.client := None |}
     with
     | Main.JSON200 _ => True
     | Main.JSONError s content =>
         exists g, content = Main.error_content g /\ s = status_code g
           /\ In (status_code g, error_type g)
                [(400, "client_ip_detection_failed"); (400, "invalid_ip");
                 (422, "private_ip"); (404, "ip_not_found");
                 (429, "rate_limit_exceeded"); (503, "provider_unavailable")]
     | Main.InternalServerError =>
         exists ip g,
           ClientIP.get_client_ip {| ClientIP.headers := []; ClientIP.client := None |}
           = Ok ip
           /\ get_geolocation no_ipv6 Fixtures.no_float Fixtures.fixture_json
                (Fixtures.mock (Raises EConnectError)) ip = Ok g
           /\ (fun _ => true) g = false
     end.
Proof.
  split; [intros u t g; discriminate|].
  apply (geolocate_client_ip_endpoint_statuses no_ipv6 Fixtures.no_float
           Fixtures.fixture_json (fun _ => true)
           (Fixtures.mock (Raises EConnectError))
           {| ClientIP.headers := []; ClientIP.client := None |}).
  intros u t g; discriminate.
Defined.

(** What [GET /geolocate/{ip}] answers, by the address: a string that is not
    a dotted-quad IPv4 literal gets 400 "invalid_ip" and an address in a
    rejected block 422 "private_ip", both without any request to the
    provider (the answer is the same whatever the HTTP client does); any
    other address is passed unchanged to the provider, whose outcome is
    the answer. *)
Theorem geolocate_ip_endpoint_by_address :
  forall (ipv6 : string -> option Z) (flt : string -> option Q)
         (json : string -> pyval + string) (renders : GeolocationResponse -> bool)
         (ip : string),
    (ipv4_of_string ip = None -> forall client : http_client,
       Main.geolocate_ip_endpoint ipv6 flt json renders client ip
       = Main.JSONError 400 (Main.error_content (InvalidIPError ip)))
    /\ (forall a, ipv4_of_string ip = Some a -> amended_rejected a = true ->
        forall client : http_client,
        Main.geolocate_ip_endpoint ipv6 flt json renders client ip
        = Main.JSONError 422 (Main.error_content (PrivateIPError ip)))
    /\ (forall a, ipv4_of_string ip = Some a -> amended_rejected a = false ->
        forall client : http_client,
        Main.geolocate_ip_endpoint ipv6 flt json renders client ip
        = Main.respond renders (get_geolocation ipv6 flt json client ip)).
Proof.
  intros ipv6 flt json renders ip.
  unfold Main.geolocate_ip_endpoint, Service.geolocate_ip.
  split; [|split].
  - intros H client. rewrite validate_ip_address_cases, H. reflexivity.
  - intros a H Hr client. rewrite validate_ip_address_cases, H.
    rewrite (rejected_blocks a (ipv4_of_string_range _ _ H)), Hr. reflexivity.
  - intros a H Hr client. rewrite validate_ip_address_cases, H.
    rewrite (rejected_blocks a (ipv4_of_string_range _ _ H)), Hr. reflexivity.
Qed.

(** [GET /geolocate] with an X-Forwarded-For whose text before the first
    comma is blank (", 1.2.3.4"): the dependency hands "" to the service,
    which answers 400 "invalid_ip" (message "Invalid IPv4 address: "),
    whatever X-Real-IP, the peer and the HTTP client are. *)
Theorem forwarded_blank_token_invalid :
  forall (ipv6 : string -> option Z) (flt : string -> option Q)
         (json : string -> pyval + string) (renders : GeolocationResponse -> bool)
         (client : http_client) (request : ClientIP.Request) (v : string),
    ClientIP.headers_get request "X-Forwarded-For" = Some v -> v <> "" ->
    PyStr.strip (ClientIP.first_token v) = "" ->
    Main.geolocate_client_ip_endpoint ipv6 flt json renders client request
    = Main.JSONError 400 (Main.error_content (InvalidIPError "")).
Proof.
  intros ipv6 flt json renders client request v Hx Hne Hs.
  unfold Main.geolocate_client_ip_endpoint.
  rewrite get_client_ip_spec. unfold ClientIP.client_ip_spec.
  rewrite Hx. unfold ClientIP.usable.
  destruct (String.eqb v "") eqn:E; [apply String.eqb_eq in E; contradiction|].
  simpl. rewrite Hs.
  unfold Main.geolocate_ip_endpoint, Service.geolocate_ip.
  rewrite validate_ip_address_cases. reflexivity.
Qed.

Lemma forwarded_blank_token_invalid_witness :
  Main.geolocate_client_ip_endpoint no_ipv6 Fixtures.no_float
    Fixtures.fixture_json (fun _ => true) (Fixtures.mock (Response 200 "google"))
    {| ClientIP.headers := [("x-forwarded-for", " , 1.2.3.4"); ("x-real-ip", "8.8.8.8")];
       ClientIP.client := Some {| ClientIP.host := "8.8.4.4"; ClientIP.port := 443 |} |}
  = Main.JSONError 400 (Main.error_content (InvalidIPError "")).
Proof.
  apply (forwarded_blank_token_invalid no_ipv6 Fixtures.no_float
           Fixtures.fixture_json (fun _ => true) (Fixtures.mock (Response 200 "google"))
           {| ClientIP.headers := [("x-forwarded-for", " , 1.2.3.4");
                                   ("x-real-ip", "8.8.8.8")];
              ClientIP.client := Some {| ClientIP.host := "8.8.4.4";
                                         ClientIP.port := 443 |} |}
           " , 1.2.3.4");
    [vm_compute; reflexivity | discriminate | vm_compute; reflexivity].
Defined.

(** [GET /health] always answers 200 (the probe's exceptions are caught):
    "healthy"/"available" exactly when the probe of BASE_URL/8.8.8.8 with a
    3 s timeout gets status 200, "degraded"/"unavailable" otherwise (never
    "unhealthy"); the provider is "ip-api.com" and the version
    [app.__version__]. *)
Theorem health_check_response :
  forall (ipv6 : string -> option Z) (flt : string -> option Q)
         (json : string -> pyval + string) (version : string)
         (client : http_client),
    exists h,
      Main.health_check ipv6 flt json version client = Main.Health200 h
      /\ Main.version h = version /\ Main.provider_ h = "ip-api.com"
      /\ ((Main.status h = "healthy" /\ Main.provider_status h = "available")
          <-> exists body, client (BASE_URL ++ "/8.8.8.8") 3 = Response 200 body)
      /\ ((Main.status h = "healthy" /\ Main.provider_status h = "available")
          \/ (Main.status h = "degraded" /\ Main.provider_status h = "unavailable")).
Proof.
  intros ipv6 flt json version client.
  unfold Main.health_check. cbn [snd Service.check_provider_health
    Service.check_health Main.provider_inst Service.ipapi_provider
    Service.provider Main.default_service Service.client].
  unfold check_health.
  destruct (client (BASE_URL ++ "/8.8.8.8") 3) as [c b|e] eqn:E.
  - eexists. split; [reflexivity|]. simpl. split; [reflexivity|]. split; [reflexivity|].
    destruct (c =? 200) eqn:Ec.
    + apply Z.eqb_eq in Ec as ->. split; [split|]; eauto.
    + apply Z.eqb_neq in Ec. split; [|right; split; reflexivity].
      split; [intros [H _]; discriminate | intros [b' H']; congruence].
  - eexists. split; [reflexivity|]. simpl. split; [reflexivity|]. split; [reflexivity|].
    split; [|right; split; reflexivity].
    split; [intros [H _]; discriminate | intros [b' H']; discriminate].
Qed.

End EndpointProofs.

(* ------------------------------------------------------------------ *)
(** ** [IPAPIProvider.get_geolocation]: the request and the body *)

Section ProviderEdges.

Import IPAPI.

(** [get_geolocation] makes one request, to BASE_URL/<ip> with the client's
    default timeout: two clients that answer that request alike give the
    same outcome.  Of the response's status code only "429" and "500 or
    more" are tested: any two other codes (a 404 or a 301 as well as a 200)
    with the same body give the same outcome. *)
Theorem get_geolocation_single_request :
  forall (ipv6 : string -> option Z) (flt : string -> option Q)
         (json : string -> pyval + string) (ip : string),
    (forall c1 c2 : http_client,
       c1 (BASE_URL ++ "/" ++ ip) DEFAULT_TIMEOUT = c2 (BASE_URL ++ "/" ++ ip) DEFAULT_TIMEOUT ->
       get_geolocation ipv6 flt json c1 ip = get_geolocation ipv6 flt json c2 ip)
    /\ (forall (c1 c2 : http_client) (s1 s2 : Z) (body : string),
          c1 (BASE_URL ++ "/" ++ ip) DEFAULT_TIMEOUT = Response s1 body ->
          c2 (BASE_URL ++ "/" ++ ip) DEFAULT_TIMEOUT = Response s2 body ->
          s1 <> 429 -> s1 < 500 -> s2 <> 429 -> s2 < 500 ->
          get_geolocation ipv6 flt json c1 ip = get_geolocation ipv6 flt json c2 ip).
Proof.
  intros ipv6 flt json ip. split.
  - intros c1 c2 H. unfold get_geolocation, lookup_body. rewrite H. reflexivity.
  - intros c1 c2 s1 s2 body H1 H2 A1 B1 A2 B2.
    unfold get_geolocation, lookup_body. rewrite H1, H2. simpl.
    replace (s1 =? 429) with false by (symmetry; apply Z.eqb_neq; lia).
    replace (s2 =? 429) with false by (symmetry; apply Z.eqb_neq; lia).
    replace (s1 >=? 500) with false by (symmetry; rewrite Z.geb_leb; apply Z.leb_gt; lia).
    replace (s2 >=? 500) with false by (symmetry; rewrite Z.geb_leb; apply Z.leb_gt; lia).
    reflexivity.
Qed.

(** A body that parses to JSON other than an object (a list, a string, a
    number, null) fails at [data.get("status")] with [AttributeError], which
    the last [except] reports as [ProviderUnavailableError]
    ("Unexpected error: AttributeError"). *)
Theorem get_geolocation_non_object_body :
  forall (ipv6 : string -> option Z) (flt : string -> option Q)
         (json : string -> pyval + string) (client : http_client)
         (ip : string) (c : Z) (body : string) (v : pyval),
    client (BASE_URL ++ "/" ++ ip) DEFAULT_TIMEOUT = Response c body ->
    c <> 429 -> c < 500 -> json body = inl v ->
    (forall d, v <> PDict d) ->
    get_geolocation ipv6 flt json client ip
    = raise (ProviderUnavailableError name "Unexpected error: AttributeError").
Proof.
  intros ipv6 flt json client ip c body v Hc H1 H2 Hj Hv.
  unfold get_geolocation, lookup_body. rewrite Hc. simpl.
  replace (c =? 429) with false by (symmetry; apply Z.eqb_neq; lia).
  replace (c >=? 500) with false by (symmetry; rewrite Z.geb_leb; apply Z.leb_gt; lia).
  unfold parse_json. rewrite Hj. simpl.
  destruct v; try reflexivity. exfalso. eapply Hv. reflexivity.
Qed.

Lemma get_geolocation_non_object_body_witness :
  get_geolocation no_ipv6 Fixtures.no_float (fun _ => inl (PList []))
    (Fixtures.mock (Response 200 "[]")) "8.8.8.8"
  = raise (ProviderUnavailableError name "Unexpected error: AttributeError").
Proof.
  apply (get_geolocation_non_object_body no_ipv6 Fixtures.no_float
           (fun _ => inl (PList [])) (Fixtures.mock (Response 200 "[]"))
           "8.8.8.8" 200 "[]" (PList []));
    [reflexivity | lia | lia | reflexivity | discriminate].
Defined.

(** An "as" field that is truthy but unusable makes the whole lookup fail
    with [ProviderUnavailableError], though every other field is fine: a
    non-string (e.g. the number 15169) has no [.split()]
    ("Unexpected error: AttributeError"), and a string of whitespace only
    splits to [] so that [[0]] raises ("Unexpected error: IndexError"). *)
Theorem get_geolocation_bad_as_field :
  forall (ipv6 : string -> option Z) (flt : string -> option Q)
         (json : string -> pyval + string) (client : http_client)
         (ip : string) (c : Z) (body : string) (d : list (string * pyval))
         (q a : pyval),
    client (BASE_URL ++ "/" ++ ip) DEFAULT_TIMEOUT = Response c body ->
    c <> 429 -> c < 500 ->
    json body = inl (PDict d) ->
    py_eq_str (match lookup "status" d with Some v => v | None => PNone end)
      "fail" = false ->
    lookup "query" d = Some q ->
    lookup "as" d = Some a -> truthy a = true ->
    (forall s, a = PStr s -> PyStr.split_ws s = [] ->
       get_geolocation ipv6 flt json client ip
       = raise (ProviderUnavailableError name "Unexpected error: IndexError"))
    /\ ((forall s, a <> PStr s) ->
        get_geolocation ipv6 flt json client ip
        = raise (ProviderUnavailableError name "Unexpected error: AttributeError")).
Proof.
  intros ipv6 flt json client ip c body d q a Hc H1 H2 Hj Hs Hq Ha Ht.
  unfold get_geolocation, lookup_body. rewrite Hc. simpl.
  replace (c =? 429) with false by (symmetry; apply Z.eqb_neq; lia).
  replace (c >=? 500) with false by (symmetry; rewrite Z.geb_leb; apply Z.leb_gt; lia).
  unfold parse_json. rewrite Hj. simpl. rewrite Hs, Hq. simpl.
  unfold as_number_of. simpl. rewrite Ha. simpl. rewrite Ht. simpl.
  split.
  - intros s -> Ew. unfold py_split. rewrite Ew. reflexivity.
  - intros Hn. destruct a; try reflexivity. exfalso. eapply Hn. reflexivity.
Qed.

Lemma get_geolocation_bad_as_field_witness :
  get_geolocation no_ipv6 Fixtures.no_float
    (fun _ => inl (PDict [("status", PStr "success"); ("query", PStr "8.8.8.8");
                          ("as", PStr " ")]))
    (Fixtures.mock (Response 200 "body")) "8.8.8.8"
  = raise (ProviderUnavailableError name "Unexpected error: IndexError").
Proof.
  exact (proj1 (get_geolocation_bad_as_field no_ipv6 Fixtures.no_float
           (fun _ => inl (PDict [("status", PStr "success"); ("query", PStr "8.8.8.8");
                                 ("as", PStr " ")]))
           (Fixtures.mock (Response 200 "body"))
           "8.8.8.8" 200 "body"
           [("status", PStr "success"); ("query", PStr "8.8.8.8"); ("as", PStr " ")]
           (PStr "8.8.8.8") (PStr " ")
           eq_refl ltac:(lia) ltac:(lia) eq_refl eq_refl eq_refl eq_refl eq_refl)
           " " eq_refl eq_refl).
Defined.

End ProviderEdges.

Lemma http_client_close_fresh_witness :
  In 0%nat (fst (HTTPClient.run [HTTPClient.GetClient] HTTPClient.initial))
  /\ 0%nat <> fst (HTTPClient.get_client (HTTPClient.close_client
                  (snd (HTTPClient.run [HTTPClient.GetClient] HTTPClient.initial)))).
Proof.
  split; [simpl; auto|].
  apply (http_client_close_fresh [HTTPClient.GetClient] 0%nat). simpl. auto.
Defined.

(* ------------------------------------------------------------------ *)
(** ** [str.strip()] in [get_client_ip] *)

Section StripProofs.

Lemma lstrip_list s : list_ascii_of_string (PyStr.lstrip s) = lstrip_l (list_ascii_of_string s).
Proof.
  induction s as [|c r IH]; simpl; [reflexivity|].
  destruct (PyStr.isspace c); [exact IH | reflexivity].
Qed.

Lemma rev_str_list s acc :
  list_ascii_of_string (PyStr.rev_str s acc)
  = (List.rev (list_ascii_of_string s) ++ list_ascii_of_string acc)%list.
Proof.
  revert acc. induction s as [|c r IH]; intros acc; simpl; [reflexivity|].
  rewrite IH. simpl. rewrite <- app_assoc. reflexivity.
Qed.

Lemma strip_list s :
  list_ascii_of_string (PyStr.strip s)
  = List.rev (lstrip_l (List.rev (lstrip_l (list_ascii_of_string s)))).
Proof.
  unfold PyStr.strip, PyStr.rstrip.
  rewrite rev_str_list, lstrip_list, rev_str_list, lstrip_list. simpl.
  rewrite !app_nil_r. reflexivity.
Qed.

Lemma lstrip_l_head l : head_not_space (lstrip_l l) = true.
Proof.
  induction l as [|c r IH]; simpl; [reflexivity|].
  destruct (PyStr.isspace c) eqn:E; [exact IH|]. simpl. rewrite E. reflexivity.
Qed.

Lemma lstrip_l_suffix l : exists p, l = (p ++ lstrip_l l)%list.
Proof.
  induction l as [|c r [p IH]]; simpl; [exists []; reflexivity|].
  destruct (PyStr.isspace c); [exists (c :: p); simpl; rewrite <- IH; reflexivity|].
  exists []. reflexivity.
Qed.

Lemma strip_no_outer_space s : no_outer_space (PyStr.strip s) = true.
Proof.
  unfold no_outer_space. rewrite strip_list, rev_involutive, lstrip_l_head.
  rewrite andb_true_r.
  set (u := lstrip_l (list_ascii_of_string s)).
  assert (Hu : head_not_space u = true) by apply lstrip_l_head.
  destruct (lstrip_l_suffix (List.rev u)) as [p Hp].
  set (t := lstrip_l (List.rev u)) in *.
  assert (Eu : u = (List.rev t ++ List.rev p)%list).
  { rewrite <- rev_app_distr, <- Hp, rev_involutive. reflexivity. }
  destruct (List.rev t) as [|c r]; [reflexivity|].
  rewrite Eu in Hu. exact Hu.
Qed.

(** An address [get_client_ip] takes from X-Forwarded-For or X-Real-IP has
    no whitespace at either end ([.strip()] is applied to it). *)
Theorem get_client_ip_header_stripped :
  forall (r : ClientIP.Request),
    ClientIP.usable (ClientIP.headers_get r "X-Forwarded-For")
    || ClientIP.usable (ClientIP.headers_get r "X-Real-IP") = true ->
    exists ip, ClientIP.get_client_ip r = Ok ip /\ no_outer_space ip = true.
Proof.
  intros r H. rewrite get_client_ip_spec. unfold ClientIP.client_ip_spec.
  destruct (ClientIP.usable (ClientIP.headers_get r "X-Forwarded-For")).
  - eexists. split; [reflexivity | apply strip_no_outer_space].
  - simpl in H. rewrite H. eexists. split; [reflexivity | apply strip_no_outer_space].
Qed.

Lemma get_client_ip_header_stripped_witness :
  exists ip, ClientIP.get_client_ip
               {| ClientIP.headers := [("x-real-ip", String (ascii_of_nat 9) " 8.8.8.8 ")];
                  ClientIP.client := None |} = Ok ip
             /\ no_outer_space ip = true.
Proof.
  apply (get_client_ip_header_stripped
           {| ClientIP.headers := [("x-real-ip", String (ascii_of_nat 9) " 8.8.8.8 ")];
              ClientIP.client := None |}).
  vm_compute. reflexivity.
Defined.

End StripProofs.
